(** * A shallow embedding of [scripts/arxml_validator.py]

    The validator loads a list of rules (JSON objects), walks a directory
    tree for [.arxml] files, parses each one, runs every rule's XPath query
    against the parsed tree and appends one list-shaped row per outcome to
    the global [results] list, which is finally handed to the report writer.

    What is modelled, and how:
    - Python [str] values are [string]s of 8-bit characters; the operations
      the script uses on them ([in], [replace], [split], [strip], [lower],
      [endswith]) are written out as executable functions.
    - A rule is a Python [dict] obtained from JSON: a [gmap string jval].
    - Exceptions are an explicit error result; the global [results] list is
      threaded through the loops as state.
    - [lxml], [re] and [os.path] are libraries outside the repository; they
      appear as the fields of a record of collaborators, so every theorem
      holds for any behaviour of theirs.
    - The [print] calls, the building of the data frame (line 108) and the
      writing of the spreadsheet are left out: the value of [main] is the
      list that the loops of lines 53-105 leave for the report. *)

From Stdlib Require Import ZArith Ascii String.
From stdpp Require Import base strings list gmap.

Set Warnings "-register-all".

(** ** Python string operations *)

Module PyStr.

(** [sub in s] *)
Fixpoint contains (sub s : string) : bool :=
  String.prefix sub s ||
  match s with
  | EmptyString => false
  | String _ s' => contains sub s'
  end.

Fixpoint drop (n : nat) (s : string) : string :=
  match n, s with
  | S k, String _ s' => drop k s'
  | _, _ => s
  end.

(** [s.replace(old, new)] for a non-empty [old]: scan from the left, and
    at every position where [old] starts emit [new] and jump over [old].
    [skip] counts the characters of a matched [old] still to jump. *)
Fixpoint replace_from (old new : string) (skip : nat) (s : string) : string :=
  match s with
  | EmptyString => EmptyString
  | String c s' =>
      match skip with
      | S k => replace_from old new k s'
      | O =>
          if String.prefix old s
          then new +:+ replace_from old new (String.length old - 1) s'
          else String c (replace_from old new 0 s')
      end
  end.

(** [s.replace("", new)] puts [new] before every character and at the end. *)
Fixpoint intersperse (new s : string) : string :=
  match s with
  | EmptyString => new
  | String c s' => new +:+ String c (intersperse new s')
  end.

Definition replace (s old new : string) : string :=
  match old with
  | EmptyString => intersperse new s
  | String _ _ => replace_from old new 0 s
  end.

(** [s.split(sep)] for a non-empty [sep]; [cur] is the piece being read. *)
Fixpoint split_from (sep : string) (skip : nat) (cur s : string) : list string :=
  match s with
  | EmptyString => [cur]
  | String c s' =>
      match skip with
      | S k => split_from sep k cur s'
      | O =>
          if String.prefix sep s
          then cur :: split_from sep (String.length sep - 1) EmptyString s'
          else split_from sep 0 (cur +:+ String c EmptyString) s'
      end
  end.

(** [s.split(sep)]; an empty separator raises [ValueError] in Python and
    is [None] here. *)
Definition split (s sep : string) : option (list string) :=
  match sep with
  | EmptyString => None
  | String _ _ => Some (split_from sep 0 EmptyString s)
  end.

(** The characters [str.isspace] accepts among the first 256 code points. *)
Definition isspace (c : ascii) : bool :=
  let n := nat_of_ascii c in
  (((9 <=? n) && (n <=? 13)) || ((28 <=? n) && (n <=? 32))
   || (n =? 133) || (n =? 160))%nat.

Fixpoint lstrip (s : string) : string :=
  match s with
  | EmptyString => EmptyString
  | String c s' => if isspace c then lstrip s' else s
  end.

Fixpoint rstrip (s : string) : string :=
  match s with
  | EmptyString => EmptyString
  | String c s' =>
      match rstrip s' with
      | EmptyString => if isspace c then EmptyString else String c EmptyString
      | r => String c r
      end
  end.

(** [s.strip()] *)
Definition strip (s : string) : string := rstrip (lstrip s).

(** Lower case among the first 256 code points: the ASCII capitals and the
    accented capitals, the multiplication sign (215) apart. *)
Definition lower_char (c : ascii) : ascii :=
  let n := nat_of_ascii c in
  if (((65 <=? n) && (n <=? 90))
      || ((192 <=? n) && (n <=? 222) && negb (n =? 215)))%nat
  then ascii_of_nat (n + 32)%nat else c.

(** [s.lower()] *)
Fixpoint lower (s : string) : string :=
  match s with
  | EmptyString => EmptyString
  | String c s' => String (lower_char c) (lower s')
  end.

(** [s.endswith(suffix)] *)
Definition endswith (s suffix : string) : bool :=
  (String.length suffix <=? String.length s)%nat
  && String.eqb (drop (String.length s - String.length suffix) s) suffix.

End PyStr.

(** ** [normalize_xpath] on strings *)

Definition marker : string := "local-name()".

(** Lines 38-41 for a [str] argument. *)
Definition normalize_xpath (xpath : string) : string :=
  if PyStr.contains marker xpath then xpath
  else
    PyStr.replace (PyStr.replace xpath "//" "//*[local-name()='")
                  "/" "'][local-name()='"
    +:+ "']".

(** The two texts [normalize_xpath] writes in place of the separators. *)
Definition opening : string := "//*[local-name()='".
Definition step : string := "'][local-name()='".

(** ** Values, exceptions and rows *)

(** A value read from the rule file by [json.load]. Numbers are the
    integers; the script only ever tests a number for truth. *)
Inductive jval : Type :=
  | JNull
  | JBool (b : bool)
  | JNum (z : Z)
  | JStr (s : string)
  | JArr (l : list jval)
  | JObj (m : gmap string jval).

(** The exceptions that can leave the script's own code. *)
Inductive exn : Type :=
  | TypeError
  | AttributeError
  | ValueError
  | ReError
  | OverflowError
  | RecursionError
  | SystemExit (msg : string).

Inductive result (A : Type) : Type :=
  | Ok (a : A)
  | Raise (e : exn).
Arguments Ok {A} a.
Arguments Raise {A} e.

Definition bind {A B : Type} (r : result A) (k : A -> result B) : result B :=
  match r with
  | Ok a => k a
  | Raise e => Raise e
  end.

Notation "x <- r ;; k" := (bind r (fun x => k))
  (at level 100, r at next level, right associativity).

(** A [for] loop whose body updates a state and may raise. *)
Fixpoint for_each {A S : Type} (xs : list A) (body : A -> S -> result S) (s : S)
  : result S :=
  match xs with
  | [] => Ok s
  | x :: xs' => s' <- body x s ;; for_each xs' body s'
  end.

(** One entry of [results]: a Python list. *)
Abbreviation row := (list jval).

(** The column names given to the report (lines 108-117). *)
Definition columns : list string :=
  ["ARXML Path"; "ARXML File"; "Rule ID"; "Description";
   "XPath"; "Expected"; "Actual"; "Status"].

(** Python truth value, as [if v] and [not v] test it. *)
Definition truthy (v : jval) : bool :=
  match v with
  | JNull => false
  | JBool b => b
  | JNum z => negb (z =? 0)%Z
  | JStr s => negb (String.eqb s EmptyString)
  | JArr l => negb (length l =? 0)%nat
  | JObj m => negb (size m =? 0)%nat
  end.

Definition is_str (s : string) (v : jval) : bool :=
  match v with
  | JStr t => String.eqb s t
  | _ => false
  end.

(** [rule.get(key, default)] on a dict. *)
Definition dict_get (m : gmap string jval) (key : string) (dflt : jval) : jval :=
  default dflt (m !! key).

(** [normalize_xpath] called on an arbitrary value. [marker in xpath] is a
    substring test on a [str], a membership test on a list, a key test on a
    dict and a [TypeError] otherwise; only a [str] has [replace]. *)
Definition normalize_xpath_dyn (xpath : jval) : result jval :=
  match xpath with
  | JStr s => Ok (JStr (normalize_xpath s))
  | JArr l => if existsb (is_str marker) l then Ok xpath else Raise AttributeError
  | JObj m => if bool_decide (is_Some (m !! marker)) then Ok xpath
              else Raise AttributeError
  | JNull | JBool _ | JNum _ => Raise TypeError
  end.

(** ** The libraries the script calls *)

(** One item of a node-set [root.xpath] returns: an element, which has a
    [text], or another kind of result (a text node, an attribute value, a
    namespace pair), which has none. *)
Inductive query_item (E : Type) : Type :=
  | ElementNode (e : E)
  | PlainResult.
Arguments ElementNode {E} e.
Arguments PlainResult {E}.

(** What [root.xpath] returns when it does not raise: a list for a
    node-set, a float (of which the script only tests whether it is zero),
    a boolean or a string. *)
Inductive query_value (E : Type) : Type :=
  | Nodes (items : list (query_item E))
  | Number (nonzero : bool)
  | Boolean (b : bool)
  | Text (s : string).
Arguments Nodes {E} items.
Arguments Number {E} nonzero.
Arguments Boolean {E} b.
Arguments Text {E} s.

(** How [re.match] can fail on a pattern that is a [str]: the pattern does
    not compile, a repeat count is too large, or the matcher recurses too
    deep. *)
Inductive match_fault : Type :=
  | PatternRejected
  | MatchOverflow
  | MatchRecursion.

Definition match_exn (f : match_fault) : exn :=
  match f with
  | PatternRejected => ReError
  | MatchOverflow => OverflowError
  | MatchRecursion => RecursionError
  end.

Record Collaborators : Type := {
  Tree : Type;
  Elem : Type;
  (** [etree.parse(full_path).getroot()], or [str(e)] of the exception. *)
  etree_parse : string -> string + Tree;
  (** [root.xpath(q)] for a [str] query; [None] when it raises. *)
  xpath : Tree -> string -> option (query_value Elem);
  (** [elem.text] *)
  text : Elem -> option string;
  (** [re.match(pattern, s) is not None], or the way the call fails. *)
  re_match : string -> string -> match_fault + bool;
  (** [os.path.join], [os.path.relpath] and the configured scan root. *)
  path_join : string -> string -> string;
  relpath : string -> string -> string;
  ARXML_DIR : string;
}.

Section Engine.

Variable C : Collaborators.

(** [actual == expected] for an [actual] that is [None] or a [str]. *)
Definition py_eq (actual : option string) (expected : jval) : bool :=
  match actual, expected with
  | None, JNull => true
  | Some a, JStr e => String.eqb a e
  | _, _ => false
  end.

(** Lines 20-31. *)
Definition evaluate_condition (actual : option string) (expected condition : jval)
  : result bool :=
  if is_str "EQUALS" condition then Ok (py_eq actual expected)
  else if is_str "NOT_EQUALS" condition then Ok (negb (py_eq actual expected))
  else if is_str "EXISTS" condition then
    Ok (negb (match actual with
              | None => true
              | Some a => String.eqb a EmptyString
              end))
  else if is_str "IN" condition then
    match expected with
    | JStr e =>
        match PyStr.split e "," with
        | Some parts =>
            Ok (match actual with
                | Some a => existsb (String.eqb a) (map PyStr.strip parts)
                | None => false
                end)
        | None => Raise TypeError
        end
    | _ => Raise AttributeError
    end
  else if is_str "REGEX" condition then
    match expected with
    | JStr pattern =>
        match re_match C pattern (default EmptyString actual) with
        | inr b => Ok b
        | inl f => Raise (match_exn f)
        end
    | _ => Raise TypeError
    end
  else Ok false.

(** [root.xpath(xpath)] inside the [try] of lines 81-88: anything but a
    [str] is refused by the library, like a query it cannot compile. *)
Definition root_xpath (root : Tree C) (q : jval)
  : option (query_value (Elem C)) :=
  match q with
  | JStr s => xpath C root s
  | _ => None
  end.

(** [not elements] of line 90. *)
Definition no_result (elements : query_value (Elem C)) : bool :=
  match elements with
  | Nodes items => (length items =? 0)%nat
  | Number nonzero => negb nonzero
  | Boolean b => negb b
  | Text s => String.eqb s EmptyString
  end.

(** What [for elem in elements] of line 98 runs over: the items of a list,
    the characters of a string (plain strings themselves); a float and a
    boolean cannot be run over. *)
Definition result_items (elements : query_value (Elem C))
  : result (list (query_item (Elem C))) :=
  match elements with
  | Nodes items => Ok items
  | Text s => Ok (map (fun _ => PlainResult) (list_ascii_of_string s))
  | Number _ | Boolean _ => Raise TypeError
  end.

(** [elem.text] of line 99: only an element has one. *)
Definition item_text (elem : query_item (Elem C)) : result (option string) :=
  match elem with
  | ElementNode e => Ok (text C e)
  | PlainResult => Raise AttributeError
  end.

(** Lines 98-105: the body of [for elem in elements]. *)
Definition elem_body (rel_path file : string) (rule_id desc q expected condition : jval)
    (elem : query_item (Elem C)) (results : list row) : result (list row) :=
  elem_text <- item_text elem ;;
  let actual := PyStr.strip (default EmptyString elem_text) in
  ok <- evaluate_condition (Some actual) expected condition ;;
  let status := if ok then "PASS" else "FAIL" in
  Ok (results ++ [[JStr rel_path; JStr file; rule_id; desc;
                   q; expected; JStr actual; JStr status]]).

(** Lines 73-105: the body of [for rule in rules]. Only a dict has [get]. *)
Definition rule_body (root : Tree C) (rel_path file : string)
    (rule : jval) (results : list row) : result (list row) :=
  match rule with
  | JObj m =>
      let rule_id := dict_get m "rule_id" (JStr "UNKNOWN") in
      let desc := dict_get m "description" (JStr EmptyString) in
      q <- normalize_xpath_dyn (dict_get m "xpath" (JStr EmptyString)) ;;
      let condition := dict_get m "condition" (JStr EmptyString) in
      let expected := dict_get m "expected" (JStr EmptyString) in
      let mandatory := dict_get m "mandatory" (JBool true) in
      match root_xpath root q with
      | None =>
          Ok (results ++ [[JStr rel_path; JStr file; rule_id; desc;
                           q; expected; JStr EmptyString; JStr "INVALID_XPATH"]])
      | Some elements =>
          if no_result elements then
            let status := if truthy mandatory then "FAIL" else "SKIP" in
            Ok (results ++ [[JStr rel_path; JStr file; rule_id; desc;
                             q; expected; JStr EmptyString; JStr status]])
          else
            items <- result_items elements ;;
            for_each items
              (elem_body rel_path file rule_id desc q expected condition) results
      end
  | _ => Raise AttributeError
  end.

(** Lines 63-105: one document. *)
Definition document_body (rules : list jval) (full_path rel_path file : string)
    (results : list row) : result (list row) :=
  match etree_parse C full_path with
  | inl e =>
      Ok (results ++ [[JStr rel_path; JStr file; JStr "PARSE_ERROR";
                       JStr EmptyString; JStr EmptyString; JStr e; JStr "FAIL"]])
  | inr root => for_each rules (rule_body root rel_path file) results
  end.

(** Lines 54-105: the body of [for file in files]. *)
Definition file_body (rules : list jval) (root_dir file : string)
    (results : list row) : result (list row) :=
  if negb (PyStr.endswith (PyStr.lower file) ".arxml") then Ok results
  else
    let full_path := path_join C root_dir file in
    let rel_path := relpath C full_path (ARXML_DIR C) in
    document_body rules full_path rel_path file results.

(** Lines 45-105. [walk] is what [os.walk(ARXML_DIR)] yields: each
    directory with the names of its files. The value is the [results]
    list handed to the report, or the exception that ends the process. *)
Definition main (rules : list jval) (walk : list (string * list string))
  : result (list row) :=
  match rules with
  | [] => Raise (SystemExit "ERROR: No rules loaded")
  | _ :: _ =>
      for_each walk
        (fun d results => for_each d.2 (file_body rules d.1) results) []
  end.

End Engine.

(** ** A small concrete world

    One instance of the collaborators, to run the engine on: two files in
    the scan root, a query engine that understands exactly the queries
    [//*[local-name()='N']] (the elements named N) and
    [//*[local-name()='N']/text()] (their text nodes), and a pattern matcher
    that compares literally and rejects an unbalanced parenthesis. *)

Module Demo.

Definition ok_tree : list (string * option string) :=
  [("A", Some " 1.0.0 "); ("B", None); ("A", Some "2.0")].

Definition demo_parse (full_path : string) : string + list (string * option string) :=
  if String.eqb full_path "proj/ok.arxml" then inr ok_tree
  else if String.eqb full_path "proj/bad.arxml" then inl "Start tag expected"
  else inr [].

Definition demo_xpath (root : list (string * option string)) (q : string)
  : option (query_value (string * option string)) :=
  let name := PyStr.drop (String.length opening) q in
  let named := filter (fun e => String.prefix (e.1 +:+ "']") name = true) root in
  if String.prefix opening q && PyStr.endswith q "']" then
    Some (Nodes (map ElementNode named))
  else if String.prefix opening q && PyStr.endswith q "']/text()" then
    Some (Nodes (map (fun _ => PlainResult)
                     (filter (fun e => is_Some e.2) named)))
  else None.

Definition demo_match (pattern s : string) : match_fault + bool :=
  if PyStr.contains "(" pattern then inl PatternRejected
  else inr (String.prefix pattern s).

Definition world : Collaborators := {|
  Tree := list (string * option string);
  Elem := string * option string;
  etree_parse := demo_parse;
  xpath := demo_xpath;
  text := snd;
  re_match := demo_match;
  path_join := fun d f => d +:+ "/" +:+ f;
  relpath := fun p base => PyStr.drop (String.length base + 1) p;
  ARXML_DIR := "proj";
|}.

(** A rule whose pattern the matcher rejects. *)
Definition bad_regex_fields : gmap string jval :=
  list_to_map [("rule_id", JStr "R1"); ("xpath", JStr "//*[local-name()='A']");
               ("condition", JStr "REGEX"); ("expected", JStr "(")].

(** A rule written the way the rule file writes paths. *)
Definition plain_fields : gmap string jval :=
  list_to_map [("rule_id", JStr "R2"); ("xpath", JStr "/A/B");
               ("condition", JStr "EXISTS")].

(** A rule that names only its query. *)
Definition bare_fields : gmap string jval :=
  list_to_map [("xpath", JStr "//*[local-name()='A']")].

(** A rule without a condition whose query selects text nodes. *)
Definition text_fields : gmap string jval :=
  list_to_map [("xpath", JStr "//*[local-name()='A']/text()")].

(** A rule whose query is a number. *)
Definition numeric_query_fields : gmap string jval :=
  list_to_map [("rule_id", JStr "R5"); ("xpath", JNum 5)].

(** An optional rule that matches nothing. *)
Definition optional_fields : gmap string jval :=
  list_to_map [("rule_id", JStr "R4"); ("xpath", JStr "//*[local-name()='Z']");
               ("condition", JStr "EXISTS"); ("mandatory", JBool false)].

End Demo.

(** ** What the properties below speak about *)

(** The status of a row is the entry the script writes last. *)
Definition status (r : row) : option jval := last r.

(** The statuses the specification lists, and the ones the script writes. *)
Definition spec_statuses : list string :=
  ["PASS"; "FAIL"; "SKIP"; "PARSE_ERROR"; "INVALID_QUERY"].
Definition code_statuses : list string :=
  ["PASS"; "FAIL"; "SKIP"; "INVALID_XPATH"].

Definition status_in (allowed : list string) (r : row) : bool :=
  match status r with
  | Some (JStr s) => existsb (String.eqb s) allowed
  | _ => false
  end.

(** What a row written for a parsed document looks like. *)
Definition rule_row (r : row) : Prop :=
  length r = 8 /\ status_in code_statuses r = true.

(** The position of a report column, and the entry a row has there. *)
Fixpoint index_of (name : string) (names : list string) : option nat :=
  match names with
  | [] => None
  | n :: names' => if String.eqb name n then Some 0 else S <$> index_of name names'
  end.

Definition field (name : string) (r : row) : option jval :=
  match index_of name columns with
  | Some i => r !! i
  | None => None
  end.

(** Two things every XPath 1.0 query rooted at the document has: it starts
    with the separator, and each of its string literals is closed. *)
Definition rooted (q : string) : bool := String.prefix "/" q.

Inductive quoting : Type := Unquoted | SingleQuoted | DoubleQuoted.

Fixpoint literals_closed_from (st : quoting) (q : string) : bool :=
  match q with
  | EmptyString => match st with Unquoted => true | _ => false end
  | String c q' =>
      let n := nat_of_ascii c in
      match st with
      | Unquoted =>
          if (n =? 39)%nat then literals_closed_from SingleQuoted q'
          else if (n =? 34)%nat then literals_closed_from DoubleQuoted q'
          else literals_closed_from Unquoted q'
      | SingleQuoted =>
          literals_closed_from (if (n =? 39)%nat then Unquoted else SingleQuoted) q'
      | DoubleQuoted =>
          literals_closed_from (if (n =? 34)%nat then Unquoted else DoubleQuoted) q'
      end
  end.

Definition literals_closed (q : string) : bool := literals_closed_from Unquoted q.

(** A step that compares the local name with the empty name. *)
Definition empty_step : string := "local-name()=''".

(** ** The start of the script *)

(** [load_rules] (lines 15-17) on the value [json.load] returns: only a
    dict has [get]. *)
Definition load_rules (top : jval) : result jval :=
  match top with
  | JObj m => Ok (dict_get m "rules" (JArr []))
  | _ => Raise AttributeError
  end.

(** [len(v)] *)
Definition py_len (v : jval) : result nat :=
  match v with
  | JStr s => Ok (String.length s)
  | JArr l => Ok (length l)
  | JObj m => Ok (size m)
  | JNull | JBool _ | JNum _ => Raise TypeError
  end.

(** What [for x in v] runs over: the items of a list, the characters of a
    [str], the keys of a dict. The order of the keys is not kept here; every
    key is a [str], which [rule_body] refuses whatever it holds. *)
Definition py_iter (v : jval) : result (list jval) :=
  match v with
  | JArr l => Ok l
  | JStr s => Ok (map (fun c => JStr (String c EmptyString)) (list_ascii_of_string s))
  | JObj m => Ok (map (fun kv => JStr kv.1) (map_to_list m))
  | JNull | JBool _ | JNum _ => Raise TypeError
  end.

(** Lines 45-105 from the parsed rule file on: [rules = load_rules()], the
    [len(rules)] of line 48, then the check and the loops of [main]. *)
Definition script (C : Collaborators) (top : jval)
    (walk : list (string * list string)) : result (list row) :=
  rules <- load_rules top ;;
  _ <- py_len rules ;;
  items <- py_iter rules ;;
  main C items walk.

(** The test of line 55. *)
Definition accepted (file : string) : bool :=
  PyStr.endswith (PyStr.lower file) ".arxml".

(** The condition names [evaluate_condition] knows. *)
Definition known_conditions : list string :=
  ["EQUALS"; "NOT_EQUALS"; "EXISTS"; "IN"; "REGEX"].

(** A query that the engine, on whatever document, refuses or answers
    with nothing or with a list of elements. *)
Definition element_answers (C : Collaborators) (query : string) : Prop :=
  forall (root : Tree C) (v : query_value (Elem C)),
    xpath C root query = Some v ->
    no_result C v = true \/ exists elements, v = Nodes (map ElementNode elements).

(** A rule on which no step of [rule_body] can raise: it is a dict, its
    query is a [str] (or absent) that the engine answers with elements, an
    IN condition has a [str] to split and a REGEX condition a pattern the
    matcher never fails on. *)
Definition safe_rule (C : Collaborators) (rule : jval) : Prop :=
  exists (m : gmap string jval) (x : string),
    rule = JObj m /\
    dict_get m "xpath" (JStr EmptyString) = JStr x /\
    element_answers C (normalize_xpath x) /\
    (dict_get m "condition" (JStr EmptyString) = JStr "IN" ->
     exists e, dict_get m "expected" (JStr EmptyString) = JStr e) /\
    (dict_get m "condition" (JStr EmptyString) = JStr "REGEX" ->
     exists p, dict_get m "expected" (JStr EmptyString) = JStr p /\
               forall s, exists b, re_match C p s = inr b).

(** The rows a body adds do not depend on the rows already there. *)
Definition framed {A : Type} (body : A -> list row -> result (list row)) : Prop :=
  forall x s, body x s = (rows <- body x [] ;; Ok (s ++ rows)).

(** What every row of a rule says about where it comes from. *)
Definition row_of_pair (rel_path file : string) (rule_id : jval) (r : row) : Prop :=
  field "ARXML Path" r = Some (JStr rel_path) /\
  field "ARXML File" r = Some (JStr file) /\
  field "Rule ID" r = Some rule_id.

(** The files of a walk that pass the test of line 55, in scan order. *)
Definition accepted_files (walk : list (string * list string)) : list string :=
  flat_map (fun d => List.filter accepted d.2) walk.

(** The row of a file that does not parse. *)
Definition parse_error_row (file : string) (r : row) : Prop :=
  field "ARXML File" r = Some (JStr file) /\
  field "Rule ID" r = Some (JStr "PARSE_ERROR") /\
  status r = Some (JStr "FAIL").

(** A rule the rule loop cannot read, with the exception that reading it
    raises: a value that is no dict has no [get] (line 74), and a query that
    is null, a boolean or a number fails the substring test of line 37. *)
Inductive ill_typed : jval -> exn -> Prop :=
  | ill_typed_rule (rule : jval) :
      (forall m, rule <> JObj m) -> ill_typed rule AttributeError
  | ill_typed_query (m : gmap string jval) (v : jval) :
      m !! "xpath" = Some v ->
      v = JNull \/ (exists b, v = JBool b) \/ (exists z, v = JNum z) ->
      ill_typed (JObj m) TypeError.

(** The exceptions the loops can end with. *)
Definition engine_fault (e : exn) : Prop :=
  e = TypeError \/ e = AttributeError \/ exists f, e = match_exn f.

(** * [scripts/arxml_excel.py]: the rows of the side-by-side sheet *)

Module Excel.

(** Lines 21-26. *)
Definition HTML_COLORS : gmap string string :=
  list_to_map [("Added", "aaffaa"); ("Changed", "ffff77");
               ("Deleted", "ffaaaa"); ("Equal", "ffffff")].

(** The dict literal of line 79. *)
Definition change_names : gmap string string :=
  list_to_map [("insert", "Added"); ("delete", "Deleted"); ("replace", "Changed")].

(** Lines 78-79. *)
Definition classify (tag : string) : string :=
  default "Equal" (change_names !! tag).

(** Line 119: the colour a row of the sheet is filled with. *)
Definition color_of (change : string) : string :=
  default "ffffff" (HTML_COLORS !! change).

(** A cell of a row: a line number or a text. *)
Inductive cell : Type :=
  | Num (n : nat)
  | Txt (s : string).

(** [xs[i:j]] for indices that are not negative. *)
Definition slice {A : Type} (xs : list A) (i j : nat) : list A :=
  drop i (take j xs).

(** One entry of [matcher.get_opcodes()]: [(tag, i1, i2, j1, j2)]. *)
Abbreviation opcode := (string * nat * nat * nat * nat)%type.

(** Lines 100-105: the row for position [k] of a block. *)
Definition block_row (left_block right_block : list string) (i1 j1 : nat)
    (change_type : string) (k : nat) : list cell :=
  let lnum := if k <? length left_block then Num (i1 + k + 1) else Txt EmptyString in
  let ltxt := if k <? length left_block
              then Txt (default EmptyString (left_block !! k)) else Txt EmptyString in
  let rnum := if k <? length right_block then Num (j1 + k + 1) else Txt EmptyString in
  let rtxt := if k <? length right_block
              then Txt (default EmptyString (right_block !! k)) else Txt EmptyString in
  [lnum; ltxt; rnum; rtxt; Txt change_type].

(** Lines 95-105: the rows of one opcode. *)
Definition block_rows (xml1 xml2 : list string) (op : opcode) : list (list cell) :=
  let '(tag, i1, i2, j1, j2) := op in
  let left_block := slice xml1 i1 i2 in
  let right_block := slice xml2 j1 j2 in
  let max_len := max (length left_block) (length right_block) in
  let change_type := classify tag in
  map (block_row left_block right_block i1 j1 change_type) (seq 0 max_len).

(** Lines 92-105: all rows, given the opcodes [difflib] computed. *)
Definition diff_rows (xml1 xml2 : list string) (opcodes : list opcode)
  : list (list cell) :=
  flat_map (block_rows xml1 xml2) opcodes.

(** The numbered lines a list of rows shows on the left and on the right. *)
Definition left_line (r : list cell) : option (nat * string) :=
  match r with
  | Num n :: Txt t :: _ => Some (n, t)
  | _ => None
  end.

Definition right_line (r : list cell) : option (nat * string) :=
  match r with
  | _ :: _ :: Num n :: Txt t :: _ => Some (n, t)
  | _ => None
  end.

(** The lines of a file with their numbers, from [start] + 1 on. *)
Definition numbered (start : nat) (lines : list string) : list (nat * string) :=
  imap (fun k t => (start + k + 1, t)) lines.

(** What the documentation of [difflib] promises of the opcodes for
    sequences of lengths [n1] and [n2]: each block starts where the one
    before ended, the first at 0 and the last ending at the lengths. *)
Fixpoint chained (i j : nat) (opcodes : list opcode) (n1 n2 : nat) : Prop :=
  match opcodes with
  | [] => i = n1 /\ j = n2
  | (_, i1, i2, j1, j2) :: rest =>
      i1 = i /\ j1 = j /\ i1 <= i2 /\ j1 <= j2 /\ chained i2 j2 rest n1 n2
  end.

End Excel.

(** * [scripts/sharepoint_svn_sync.py]: names and retries *)

Module Sync.

(** The characters of the literal of line 38: the double quote has code 34. *)
Definition forbidden : string :=
  "<>:" +:+ String (ascii_of_nat 34) "/\|?*".

(** Lines 36-38. *)
Fixpoint clean_name (name : string) : string :=
  match name with
  | EmptyString => EmptyString
  | String c rest =>
      if PyStr.contains (String c EmptyString) forbidden
      then clean_name rest
      else String c (clean_name rest)
  end.

(** What the script reads of a response: its status and the Retry-After
    header, [None] when the header is absent. *)
Record response : Type := {
  status_code : nat;
  retry_after : option string;
}.

(** How a call of [request_with_retry] can end without a response. *)
Inductive fault : Type :=
  | HTTPError (resp : response)
  | RequestFault (what : string)
  | IntValueError
  | UnboundLocalError.

Inductive outcome : Type :=
  | Returned (resp : response)
  | Raised (f : fault).

(** [resp.status_code in (429, 503, 504)] *)
Definition throttled (resp : response) : bool :=
  (status_code resp =? 429) || (status_code resp =? 503)
  || (status_code resp =? 504).

(** [resp.raise_for_status()] raises for the client and server errors. *)
Definition raise_for_status (resp : response) : bool :=
  (400 <=? status_code resp) && (status_code resp <? 600).

(** [c.isdigit()] among the first 256 code points: the decimal digits and
    the superscripts one, two and three. *)
Definition isdigit_char (c : ascii) : bool :=
  let n := nat_of_ascii c in
  ((48 <=? n) && (n <=? 57)) || (n =? 178) || (n =? 179) || (n =? 185).

Fixpoint all_chars (p : ascii -> bool) (s : string) : bool :=
  match s with
  | EmptyString => true
  | String c rest => p c && all_chars p rest
  end.

(** [s.isdigit()] *)
Definition isdigit (s : string) : bool :=
  negb (String.eqb s EmptyString) && all_chars isdigit_char s.

(** [int(s)] for a text of digits, read from the left with the value so
    far; a superscript is no decimal digit and gives [None] ([ValueError]).
    The cap on the number of digits [int] converts is not modelled. *)
Fixpoint int_from (acc : nat) (s : string) : option nat :=
  match s with
  | EmptyString => Some acc
  | String c rest =>
      let n := nat_of_ascii c in
      if (48 <=? n) && (n <=? 57) then int_from (10 * acc + (n - 48)) rest
      else None
  end.

(** Lines 70-74: the seconds to wait after a throttled response. *)
Definition delay (attempt : nat) (resp : response) : option nat :=
  match retry_after resp with
  | Some s =>
      if negb (String.eqb s EmptyString) && isdigit s then int_from 0 s
      else Some (min 60 (2 ^ attempt))
  | None => Some (min 60 (2 ^ attempt))
  end.

(** Lines 66-80. [server k] is what the request of attempt [k] yields: an
    exception of the HTTP library or a response. [last] is the variable
    [resp] and [slept] the waits made so far. The value pairs the outcome
    with the waits. *)
Fixpoint retry_loop (server : nat -> string + response)
    (remaining attempt : nat) (last : option response) (slept : list nat)
  : outcome * list nat :=
  match remaining with
  | O =>
      match last with
      | None => (Raised UnboundLocalError, slept)
      | Some resp =>
          if raise_for_status resp then (Raised (HTTPError resp), slept)
          else (Returned resp, slept)
      end
  | S remaining' =>
      match server attempt with
      | inl what => (Raised (RequestFault what), slept)
      | inr resp =>
          if throttled resp then
            match delay attempt resp with
            | Some d =>
                retry_loop server remaining' (S attempt) (Some resp) (slept ++ [d])
            | None => (Raised IntValueError, slept)
            end
          else if raise_for_status resp then (Raised (HTTPError resp), slept)
          else (Returned resp, slept)
      end
  end.

(** Lines 53-80; [range(max_retries)] is empty for a count below one. *)
Definition request_with_retry (server : nat -> string + response)
    (max_retries : Z) : outcome * list nat :=
  retry_loop server (Z.to_nat max_retries) 0 None [].

(** Two sample servers: one that is busy twice and then answers, one that
    is always busy. *)
Definition flaky (k : nat) : string + response :=
  if k <? 2 then inr {| status_code := 503; retry_after := None |}
  else inr {| status_code := 200; retry_after := None |}.

Definition busy (k : nat) : string + response :=
  inr {| status_code := 503; retry_after := None |}.

End Sync.

(** * [scripts/svn_copy_and_commit.py]: the environment check *)

Module Svn.

(** How [validate_env] ends (lines 26-34). *)
Inductive validation (P : Type) : Type :=
  | Validated (source_path : P) (svn_url username password message : string)
  | EnvironmentError (message : string)
  | FileNotFoundError (source_path : P)
  | KeyError (key : string).
Arguments Validated {P} source_path svn_url username password message.
Arguments EnvironmentError {P} message.
Arguments FileNotFoundError {P} source_path.
Arguments KeyError {P} key.

Definition required : list string :=
  ["SOURCE_PATH"; "SVN_URL"; "SVN_USERNAME"; "SVN_PASSWORD"; "COMMIT_MESSAGE"].

(** [not os.environ.get(k)] *)
Definition unset (environ : gmap string string) (k : string) : bool :=
  match environ !! k with
  | Some v => String.eqb v EmptyString
  | None => true
  end.

(** [sep.join(items)] *)
Fixpoint join (sep : string) (items : list string) : string :=
  match items with
  | [] => EmptyString
  | [x] => x
  | x :: rest => x +:+ sep +:+ join sep rest
  end.

(** [os.environ[k]] and then [k'] *)
Definition environ_at {P : Type} (environ : gmap string string) (k : string)
    (k' : string -> validation P) : validation P :=
  match environ !! k with
  | Some v => k' v
  | None => KeyError k
  end.

(** Lines 26-34. [to_path] is [Path(...)], which builds a path object of
    type [P] from a text (and tidies it); [path_exists] and [is_dir] are
    what the file system answers for a path. *)
Definition validate_env {P : Type} (environ : gmap string string)
    (to_path : string -> P) (path_exists is_dir : P -> bool) : validation P :=
  let missing := List.filter (unset environ) required in
  match missing with
  | _ :: _ =>
      EnvironmentError ("Missing environment variables: " +:+ join ", " missing)
  | [] =>
      environ_at environ "SOURCE_PATH" (fun source_text =>
      let source_path := to_path source_text in
      if negb (path_exists source_path) || negb (is_dir source_path)
      then FileNotFoundError source_path
      else
        environ_at environ "SVN_URL" (fun url =>
        environ_at environ "SVN_USERNAME" (fun username =>
        environ_at environ "SVN_PASSWORD" (fun password =>
        environ_at environ "COMMIT_MESSAGE" (fun message =>
        Validated source_path url username password message)))))
  end.

End Svn.

(** * Facts *)

(** ** Substring tests and replacement *)

Section StringFacts.

Import PyStr.

Lemma prefix_nil (s : string) : String.prefix EmptyString s = true.
Proof. by destruct s. Qed.

Lemma prefix_char (c x : ascii) (s : string) :
  String.prefix (String c EmptyString) (String x s)
  = if Ascii.ascii_dec c x then true else false.
Proof. simpl. destruct (Ascii.ascii_dec c x); [apply prefix_nil | done]. Qed.

Lemma prefix_app_l (sub a b : string) :
  String.prefix sub a = true -> String.prefix sub (a +:+ b) = true.
Proof.
  revert a. induction sub as [|c sub IH]; intros a H.
  - apply prefix_nil.
  - destruct a as [|x a]; simpl in *; [done|].
    destruct (Ascii.ascii_dec c x); [by apply IH | done].
Qed.

Lemma contains_here (sub s : string) :
  String.prefix sub s = true -> contains sub s = true.
Proof. intros H. destruct s; cbn [contains]; by rewrite H. Qed.

Lemma contains_cons (sub : string) (c : ascii) (s : string) :
  contains sub s = true -> contains sub (String c s) = true.
Proof. intros H. cbn [contains]. rewrite H. apply orb_true_r. Qed.

Lemma contains_unfold (sub : string) (c : ascii) (s : string) :
  contains sub (String c s) = String.prefix sub (String c s) || contains sub s.
Proof. reflexivity. Qed.

Lemma contains_app_r (sub a b : string) :
  contains sub b = true -> contains sub (a +:+ b) = true.
Proof. intros H. induction a; simpl; [done | by apply contains_cons]. Qed.

Lemma contains_app_l (sub a b : string) :
  contains sub a = true -> contains sub (a +:+ b) = true.
Proof.
  induction a as [|c a IH]; intros H.
  - apply contains_here, (prefix_app_l sub EmptyString b).
    simpl in H. by rewrite orb_false_r in H.
  - rewrite contains_unfold in H. apply orb_true_iff in H as [H|H].
    + apply contains_here, (prefix_app_l sub (String c a) b H).
    + change (String c a +:+ b) with (String c (a +:+ b)).
      by apply contains_cons, IH.
Qed.

(** For a one-character needle, the test distributes over concatenation. *)
Lemma contains_char_app (c : ascii) (a b : string) :
  contains (String c EmptyString) (a +:+ b)
  = contains (String c EmptyString) a || contains (String c EmptyString) b.
Proof.
  induction a as [|x a IH]; [done|].
  change (String x a +:+ b) with (String x (a +:+ b)).
  rewrite !contains_unfold, !prefix_char, IH. by rewrite orb_assoc.
Qed.

(** The first replacement never loses the last separator. *)
Lemma slash_survives (s : string) (k : nat) :
  contains "/" (drop k s) = true ->
  contains "/" (replace_from "//" opening k s) = true.
Proof.
  revert k. induction s as [|c s IH]; intros k H.
  - by destruct k.
  - destruct k as [|k]; cbn [replace_from].
    + destruct (String.prefix "//" (String c s)) eqn:E.
      * by apply contains_app_l.
      * cbn [drop] in H. rewrite contains_unfold in H |- *.
        apply orb_true_iff in H as [H|H].
        -- rewrite prefix_char in H |- *. by rewrite H.
        -- apply orb_true_iff. right. apply (IH 0). by destruct s.
    + by apply IH.
Qed.

(** The second replacement writes the marker at every separator, ... *)
Lemma marker_written (s : string) :
  contains "/" s = true -> contains marker (replace_from "/" step 0 s) = true.
Proof.
  induction s as [|c s IH]; intros H; [done|].
  cbn [replace_from]. rewrite contains_unfold in H.
  destruct (String.prefix "/" (String c s)) eqn:E.
  - by apply contains_app_l.
  - apply contains_cons, IH. by rewrite orb_false_l in H.
Qed.

(** ... and leaves no separator behind. *)
Lemma no_slash_left (s : string) :
  contains "/" (replace_from "/" step 0 s) = false.
Proof.
  induction s as [|c s IH]; [done|].
  cbn [replace_from].
  destruct (String.prefix "/" (String c s)) eqn:E.
  - change (String.length "/" - 1) with 0. by rewrite contains_char_app, IH.
  - rewrite contains_unfold, IH, orb_false_r.
    rewrite prefix_char in E |- *. done.
Qed.

Lemma normalize_marked (x : string) :
  contains marker x = true -> normalize_xpath x = x.
Proof. intros H. unfold normalize_xpath. by rewrite H. Qed.

Lemma normalize_unmarked (x : string) :
  contains marker x = false ->
  normalize_xpath x
  = replace_from "/" step 0 (replace_from "//" opening 0 x) +:+ "']".
Proof. intros H. unfold normalize_xpath. by rewrite H. Qed.

(** Once an expression has a separator, its normal form carries the marker. *)
Lemma normalize_has_marker (x : string) :
  contains "/" x = true -> contains marker (normalize_xpath x) = true.
Proof.
  intros H. destruct (contains marker x) eqn:E.
  - by rewrite normalize_marked.
  - rewrite normalize_unmarked by done.
    apply contains_app_l, marker_written, (slash_survives x 0).
    by destruct x.
Qed.

(** A rewritten expression holds no separator at all, so it cannot start
    at the document root. *)
Lemma normalize_never_rooted (x : string) :
  contains marker x = false -> contains "/" (normalize_xpath x) = false.
Proof.
  intros H. rewrite normalize_unmarked by done.
  by rewrite contains_char_app, no_slash_left.
Qed.

End StringFacts.

(** ** The path normalizer *)

(** C1 (the code departs from it). The claim asks that a plain path such
    as /A/B be rewritten into a well-formed query rooted at the document
    root. The script returns a text that starts inside a predicate: it does
    not begin with the separator and it leaves a string literal open. *)
Theorem normalize_xpath_plain_path_malformed :
  PyStr.contains marker "/A/B" = false /\
  normalize_xpath "/A/B" = "'][local-name()='A'][local-name()='B']" /\
  rooted (normalize_xpath "/A/B") = false /\
  literals_closed (normalize_xpath "/A/B") = false.
Proof. repeat split; vm_compute; reflexivity. Qed.

(** The same holds for every expression without the marker: nothing the
    rewriting returns is rooted at the document root. *)
Lemma normalize_xpath_unrooted (x : string) :
  PyStr.contains marker x = false -> rooted (normalize_xpath x) = false.
Proof.
  intros H. apply normalize_never_rooted in H.
  unfold rooted. destruct (normalize_xpath x) as [|c q]; [done|].
  rewrite contains_unfold in H. by apply orb_false_iff in H as [H _].
Qed.

(** C5 (the code departs from it). The claim asks that the expression made
    of the separator alone is not rewritten into an empty step. The script
    returns exactly such a step. *)
Theorem normalize_xpath_root_only_empty_step :
  normalize_xpath "/" = "'][local-name()='']" /\
  PyStr.contains empty_step (normalize_xpath "/") = true.
Proof. split; vm_compute; reflexivity. Qed.

(** C7 (the code departs from it). The claim asks that normalizing twice
    be normalizing once on every non-empty expression without the marker.
    For an expression without a separator the script writes no marker,
    only the closing of a predicate that was never opened, so a second
    pass appends the closing text once more. *)
Lemma normalize_xpath_not_idempotent :
  "A" <> EmptyString /\
  PyStr.contains marker "A" = false /\
  normalize_xpath "A" = "A']" /\
  normalize_xpath (normalize_xpath "A") = "A']']" /\
  normalize_xpath (normalize_xpath "A") <> normalize_xpath "A".
Proof. repeat split; try (vm_compute; reflexivity); discriminate. Qed.

(** Where normalizing twice is normalizing once: an expression that
    already contains the marker is returned unchanged, and so is the result
    for every expression that contains a separator. *)
Theorem normalize_xpath_idempotent (x : string) :
  PyStr.contains "/" x = true \/ PyStr.contains marker x = true ->
  normalize_xpath (normalize_xpath x) = normalize_xpath x /\
  (PyStr.contains marker x = true -> normalize_xpath x = x).
Proof.
  intros H. split; [|apply normalize_marked].
  apply normalize_marked. destruct H as [H|H].
  - by apply normalize_has_marker.
  - by rewrite normalize_marked.
Qed.

Lemma normalize_xpath_idempotent_witness :
  normalize_xpath (normalize_xpath "/A/B") = normalize_xpath "/A/B" /\
  (PyStr.contains marker "/A/B" = true -> normalize_xpath "/A/B" = "/A/B").
Proof. apply (normalize_xpath_idempotent "/A/B"). left. reflexivity. Defined.

(** ** The condition evaluator *)

(** C8. With the condition EXISTS the evaluator returns without raising,
    its answer is the same for any two expected values, and the answer is
    true exactly when the actual value is neither [None] nor empty. *)
Theorem evaluate_condition_exists_ignores_expected
    (C : Collaborators) (actual : option string) (e1 e2 : jval) :
  exists b : bool,
    evaluate_condition C actual e1 (JStr "EXISTS") = Ok b /\
    evaluate_condition C actual e2 (JStr "EXISTS") = Ok b /\
    (b = true <-> actual <> None /\ actual <> Some EmptyString).
Proof.
  destruct actual as [a|].
  - exists (negb (String.eqb a EmptyString)).
    split; [reflexivity | split; [reflexivity|]].
    rewrite negb_true_iff, String.eqb_neq. split.
    + intros E. split; congruence.
    + intros [_ E] ->. done.
  - exists false. split; [reflexivity | split; [reflexivity|]].
    split; [discriminate | by intros [E _]].
Qed.

(** A condition the evaluator does not know is never satisfied. *)
Lemma evaluate_condition_unknown (C : Collaborators)
    (actual : option string) (expected : jval) :
  evaluate_condition C actual expected (JStr EmptyString) = Ok false.
Proof. reflexivity. Qed.

(** ** The engine *)

Section EngineFacts.

Variable C : Collaborators.

Lemma bind_ok {A B : Type} (r : result A) (k : A -> result B) (b : B) :
  bind r k = Ok b -> exists a, r = Ok a /\ k a = Ok b.
Proof. destruct r as [a|e]; simpl; [eauto | discriminate]. Qed.

(** A loop whose every pass only appends rows with a property only appends
    rows with that property. *)
Lemma for_each_appends {A : Type} (P : row -> Prop)
    (body : A -> list row -> result (list row)) (xs : list A) :
  (forall x s s', body x s = Ok s' ->
     exists rows, s' = s ++ rows /\ Forall P rows) ->
  forall s s', for_each xs body s = Ok s' ->
     exists rows, s' = s ++ rows /\ Forall P rows.
Proof.
  intros Hbody. induction xs as [|x xs IH]; intros s s' H; simpl in H.
  - exists []. split; [by rewrite app_nil_r; congruence | constructor].
  - apply bind_ok in H as (s1 & H1 & H2).
    apply Hbody in H1 as (rows1 & -> & HP1).
    apply IH in H2 as (rows2 & -> & HP2).
    exists (rows1 ++ rows2). split; [by rewrite app_assoc | by apply Forall_app].
Qed.

Lemma elem_body_appends (rel_path file : string)
    (rule_id desc q expected condition : jval) (elem : query_item (Elem C))
    (s s' : list row) :
  elem_body C rel_path file rule_id desc q expected condition elem s = Ok s' ->
  exists rows, s' = s ++ rows /\ Forall rule_row rows.
Proof.
  unfold elem_body. intros H. apply bind_ok in H as (elem_text & _ & H).
  apply bind_ok in H as (ok & _ & H).
  injection H as <-. eexists. split; [reflexivity|].
  constructor; [|constructor]. by destruct ok.
Qed.

Lemma rule_body_appends (root : Tree C) (rel_path file : string) (rule : jval)
    (s s' : list row) :
  rule_body C root rel_path file rule s = Ok s' ->
  exists rows, s' = s ++ rows /\ Forall rule_row rows.
Proof.
  unfold rule_body. destruct rule as [| | | | |m]; try discriminate.
  intros H. apply bind_ok in H as (q & _ & H).
  destruct (root_xpath C root q) as [elements|].
  - destruct (no_result C elements).
    + injection H as <-. eexists. split; [reflexivity|].
      constructor; [|constructor].
      by destruct (truthy (dict_get m "mandatory" (JBool true))).
    + apply bind_ok in H as (items & _ & H).
      revert H. apply for_each_appends. intros x t t'. apply elem_body_appends.
  - injection H as <-. eexists. split; [reflexivity|].
    constructor; [|constructor]. done.
Qed.

End EngineFacts.

(** C6. When the query of a rule runs and finds nothing, the rule adds
    exactly one row for the document: FAIL when the rule is mandatory (the
    default), SKIP when it is not. *)
Theorem no_match_one_row (C : Collaborators) (root : Tree C)
    (rel_path file : string) (m : gmap string jval) (q : jval)
    (results : list row) :
  normalize_xpath_dyn (dict_get m "xpath" (JStr EmptyString)) = Ok q ->
  root_xpath C root q = Some (Nodes []) ->
  exists r : row,
    rule_body C root rel_path file (JObj m) results = Ok (results ++ [r]) /\
    field "ARXML Path" r = Some (JStr rel_path) /\
    field "Rule ID" r = Some (dict_get m "rule_id" (JStr "UNKNOWN")) /\
    status r = Some (JStr (if truthy (dict_get m "mandatory" (JBool true))
                           then "FAIL" else "SKIP")).
Proof.
  intros Hq Hx. unfold rule_body. rewrite Hq. cbn [bind]. rewrite Hx.
  eexists. split; [reflexivity|]. repeat split.
Qed.

Lemma no_match_one_row_witness :
  exists r : row,
    rule_body Demo.world Demo.ok_tree "ok.arxml" "ok.arxml"
      (JObj Demo.optional_fields) [] = Ok ([] ++ [r]) /\
    field "ARXML Path" r = Some (JStr "ok.arxml") /\
    field "Rule ID" r = Some (dict_get Demo.optional_fields "rule_id" (JStr "UNKNOWN")) /\
    status r = Some (JStr (if truthy (dict_get Demo.optional_fields "mandatory" (JBool true))
                           then "FAIL" else "SKIP")).
Proof.
  apply (no_match_one_row Demo.world Demo.ok_tree "ok.arxml" "ok.arxml"
           Demo.optional_fields (JStr "//*[local-name()='Z']") []);
    vm_compute; reflexivity.
Defined.

(** The two outcomes of C6 on rules that say whether they are mandatory. *)
Lemma no_match_status_by_flag (C : Collaborators) (root : Tree C)
    (rel_path file : string) (m : gmap string jval) (q : jval) (b : bool)
    (results : list row) :
  m !! "mandatory" = Some (JBool b) ->
  normalize_xpath_dyn (dict_get m "xpath" (JStr EmptyString)) = Ok q ->
  root_xpath C root q = Some (Nodes []) ->
  exists r : row,
    rule_body C root rel_path file (JObj m) results = Ok (results ++ [r]) /\
    status r = Some (JStr (if b then "FAIL" else "SKIP")).
Proof.
  intros Hm Hq Hx. unfold rule_body. rewrite Hq. cbn [bind]. rewrite Hx.
  eexists. split; [reflexivity|]. unfold dict_get. rewrite Hm. by destruct b.
Qed.

(** Rules, documents and directories only ever append rows. *)
Lemma document_body_parsed_appends (C : Collaborators) (rules : list jval)
    (full_path rel_path file : string) (root : Tree C) (s s' : list row) :
  etree_parse C full_path = inr root ->
  document_body C rules full_path rel_path file s = Ok s' ->
  exists rows, s' = s ++ rows /\ Forall rule_row rows.
Proof.
  intros Hp. unfold document_body. rewrite Hp.
  apply for_each_appends. intros x t t'. apply rule_body_appends.
Qed.

(** C9. A row written for a parsed document has eight entries, one per
    report column. The row written for a document that does not parse has
    seven: the message stands where the Expected column is read, the word
    FAIL where the Actual column is read, and nothing is left for Status. *)
Theorem row_widths (C : Collaborators) (rules : list jval)
    (full_path rel_path file : string) (results results' : list row) :
  document_body C rules full_path rel_path file results = Ok results' ->
  length columns = 8 /\
  match etree_parse C full_path with
  | inr _ =>
      exists rows, results' = results ++ rows /\
                   Forall (fun r : row => length r = length columns) rows
  | inl msg =>
      exists r : row, results' = results ++ [r] /\
        length r = 7 /\
        field "Expected" r = Some (JStr msg) /\
        field "Actual" r = Some (JStr "FAIL") /\
        field "Status" r = None
  end.
Proof.
  intros H. split; [reflexivity|].
  destruct (etree_parse C full_path) as [msg|root] eqn:Hp.
  - unfold document_body in H. rewrite Hp in H. injection H as <-.
    eexists. split; [reflexivity|]. repeat split.
  - destruct (document_body_parsed_appends C rules full_path rel_path file
                root results results' Hp H) as (rows & -> & HP).
    exists rows. split; [done|].
    eapply Forall_impl; [exact HP|]. by intros r [Hl _].
Qed.

Lemma row_widths_witness :
  length columns = 8 /\
  match etree_parse Demo.world "proj/bad.arxml" with
  | inr _ =>
      exists rows,
        [[JStr "bad.arxml"; JStr "bad.arxml"; JStr "PARSE_ERROR"; JStr EmptyString;
          JStr EmptyString; JStr "Start tag expected"; JStr "FAIL"]] = [] ++ rows /\
        Forall (fun r : row => length r = length columns) rows
  | inl msg =>
      exists r : row,
        [[JStr "bad.arxml"; JStr "bad.arxml"; JStr "PARSE_ERROR"; JStr EmptyString;
          JStr EmptyString; JStr "Start tag expected"; JStr "FAIL"]] = [] ++ [r] /\
        length r = 7 /\
        field "Expected" r = Some (JStr msg) /\
        field "Actual" r = Some (JStr "FAIL") /\
        field "Status" r = None
  end.
Proof.
  apply (row_widths Demo.world [JObj Demo.bare_fields]
           "proj/bad.arxml" "bad.arxml" "bad.arxml" []).
  vm_compute. reflexivity.
Defined.

(** The parsed side of C9 on the sample document. *)
Lemma row_widths_parsed_example :
  exists rows,
    document_body Demo.world [JObj Demo.bare_fields; JObj Demo.optional_fields]
      "proj/ok.arxml" "ok.arxml" "ok.arxml" [] = Ok rows /\
    length rows = 3 /\ Forall (fun r : row => length r = 8) rows.
Proof.
  eexists. split; [vm_compute; reflexivity|]. split; [reflexivity|].
  repeat constructor.
Qed.

Lemma file_body_appends (C : Collaborators) (rules : list jval)
    (root_dir file : string) (s s' : list row) :
  file_body C rules root_dir file s = Ok s' ->
  exists rows, s' = s ++ rows /\
               Forall (fun r : row => status_in code_statuses r = true) rows.
Proof.
  unfold file_body.
  destruct (negb (PyStr.endswith (PyStr.lower file) ".arxml")).
  - intros [= <-]. exists []. by rewrite app_nil_r.
  - destruct (etree_parse C (path_join C root_dir file)) as [msg|root] eqn:Hp.
    + unfold document_body. rewrite Hp. intros [= <-].
      eexists. split; [reflexivity|]. by repeat constructor.
    + intros H. eapply document_body_parsed_appends in H as (rows & -> & HP);
        [|exact Hp].
      exists rows. split; [done|].
      eapply Forall_impl; [exact HP|]. by intros r [_ Hs].
Qed.

(** C3 as stated fails: the row written for a document that does not
    parse ends in FAIL, no entry of it is the status PARSE_ERROR, and the
    message stands neither in the Description nor in the Actual column. *)
Lemma parse_failure_row_is_not_parse_error_status :
  etree_parse Demo.world "proj/bad.arxml" = inl "Start tag expected" /\
  exists r : row,
    file_body Demo.world [JObj Demo.bare_fields] "proj" "bad.arxml" [] = Ok [r] /\
    status r = Some (JStr "FAIL") /\
    status r <> Some (JStr "PARSE_ERROR") /\
    field "Status" r <> Some (JStr "PARSE_ERROR") /\
    field "Description" r <> Some (JStr "Start tag expected") /\
    field "Actual" r <> Some (JStr "Start tag expected").
Proof.
  split; [reflexivity|]. eexists. split; [vm_compute; reflexivity|].
  repeat split; vm_compute; congruence.
Qed.

(** C3 (amended). A file that does not parse adds exactly one row, the
    same whatever rules are loaded: its rule id is PARSE_ERROR, its status
    is FAIL and it carries the message of the failure. No rule is run on
    the file, and the loop goes on with the files that follow. *)
Theorem parse_failure_one_row (C : Collaborators) (root_dir file msg : string) :
  PyStr.endswith (PyStr.lower file) ".arxml" = true ->
  etree_parse C (path_join C root_dir file) = inl msg ->
  exists r : row,
    field "Rule ID" r = Some (JStr "PARSE_ERROR") /\
    status r = Some (JStr "FAIL") /\
    In (JStr msg) r /\
    forall (rules : list jval) (results : list row),
      file_body C rules root_dir file results = Ok (results ++ [r]) /\
      forall files : list string,
        for_each (file :: files) (file_body C rules root_dir) results
        = for_each files (file_body C rules root_dir) (results ++ [r]).
Proof.
  intros Hext Hp.
  assert (Hfile : forall rules results,
    file_body C rules root_dir file results
    = Ok (results ++ [[JStr (relpath C (path_join C root_dir file) (ARXML_DIR C));
                       JStr file; JStr "PARSE_ERROR"; JStr EmptyString;
                       JStr EmptyString; JStr msg; JStr "FAIL"]])).
  { intros rules results. unfold file_body, document_body.
    by rewrite Hext, Hp. }
  eexists. split; [|split; [|split]]; cycle 3.
  - intros rules results. split; [apply Hfile|].
    intros files. cbn [for_each]. by rewrite Hfile.
  - reflexivity.
  - reflexivity.
  - simpl. tauto.
Qed.

Lemma parse_failure_one_row_witness :
  exists r : row,
    field "Rule ID" r = Some (JStr "PARSE_ERROR") /\
    status r = Some (JStr "FAIL") /\
    In (JStr "Start tag expected") r /\
    forall (rules : list jval) (results : list row),
      file_body Demo.world rules "proj" "bad.arxml" results = Ok (results ++ [r]) /\
      forall files : list string,
        for_each ("bad.arxml" :: files) (file_body Demo.world rules "proj") results
        = for_each files (file_body Demo.world rules "proj") (results ++ [r]).
Proof.
  apply (parse_failure_one_row Demo.world "proj" "bad.arxml" "Start tag expected");
    vm_compute; reflexivity.
Defined.

(** C4 as stated fails: a query the engine refuses is recorded with the
    status INVALID_XPATH, which is none of the five statuses listed. *)
Lemma refused_query_status_outside_spec_set :
  exists (results : list row) (r : row),
    main Demo.world [JObj Demo.plain_fields] [("proj", ["ok.arxml"])] = Ok results /\
    In r results /\
    status r = Some (JStr "INVALID_XPATH") /\
    status_in spec_statuses r = false.
Proof.
  eexists. eexists. split; [vm_compute; reflexivity|].
  split; [left; reflexivity|]. split; reflexivity.
Qed.

(** C4 (amended). Every row of a run that completes ends in one of PASS,
    FAIL, SKIP and INVALID_XPATH; the row written when the engine refuses
    the query of a rule ends in INVALID_XPATH and its actual value is
    empty. *)
Theorem rows_carry_code_statuses (C : Collaborators) :
  (forall (rules : list jval) (walk : list (string * list string))
          (results : list row),
     main C rules walk = Ok results ->
     Forall (fun r : row => status_in code_statuses r = true) results) /\
  (forall (root : Tree C) (rel_path file : string) (m : gmap string jval)
          (q : jval) (results : list row),
     normalize_xpath_dyn (dict_get m "xpath" (JStr EmptyString)) = Ok q ->
     root_xpath C root q = None ->
     exists r : row,
       rule_body C root rel_path file (JObj m) results = Ok (results ++ [r]) /\
       status r = Some (JStr "INVALID_XPATH") /\
       field "Actual" r = Some (JStr EmptyString)).
Proof.
  split.
  - intros rules walk results H. unfold main in H.
    destruct rules as [|rule rules]; [discriminate|].
    eapply for_each_appends in H as (rows & -> & HP); [exact HP|].
    intros d s s'. apply for_each_appends.
    intros file t t'. apply file_body_appends.
  - intros root rel_path file m q results Hq Hx.
    unfold rule_body. rewrite Hq. cbn [bind]. rewrite Hx.
    eexists. split; [reflexivity|]. split; reflexivity.
Qed.

Lemma rows_carry_code_statuses_witness :
  Forall (fun r : row => status_in code_statuses r = true)
    [[JStr "ok.arxml"; JStr "ok.arxml"; JStr "R2"; JStr EmptyString;
      JStr "'][local-name()='A'][local-name()='B']"; JStr EmptyString;
      JStr EmptyString; JStr "INVALID_XPATH"];
     [JStr "bad.arxml"; JStr "bad.arxml"; JStr "PARSE_ERROR"; JStr EmptyString;
      JStr EmptyString; JStr "Start tag expected"; JStr "FAIL"]].
Proof.
  apply (proj1 (rows_carry_code_statuses Demo.world)
           [JObj Demo.plain_fields] [("proj", ["ok.arxml"; "bad.arxml"])]).
  vm_compute. reflexivity.
Defined.

(** ** Faults that leave the engine *)

(** The check of line 50 comes first: with no rule the run ends at once. *)
Lemma main_without_rules (C : Collaborators) (walk : list (string * list string)) :
  main C [] walk = Raise (SystemExit "ERROR: No rules loaded").
Proof. reflexivity. Qed.

(** C2 (the code departs from it). The claim asks that a fault raised while
    a condition is evaluated be recorded as a row and the run complete.
    The call of line 100 stands outside every [try]: when the matcher
    fails on the pattern of a REGEX rule at the first node it is asked
    about (a pattern it rejects, for one), the exception ends the run and
    no report is produced. *)
Theorem regex_fault_aborts_run (C : Collaborators)
    (m : gmap string jval) (rules : list jval)
    (root_dir file : string) (files : list string)
    (walk : list (string * list string))
    (root : Tree C) (q : jval) (pattern : string)
    (e : Elem C) (es : list (query_item (Elem C))) (f : match_fault) :
  PyStr.endswith (PyStr.lower file) ".arxml" = true ->
  etree_parse C (path_join C root_dir file) = inr root ->
  normalize_xpath_dyn (dict_get m "xpath" (JStr EmptyString)) = Ok q ->
  root_xpath C root q = Some (Nodes (ElementNode e :: es)) ->
  m !! "condition" = Some (JStr "REGEX") ->
  m !! "expected" = Some (JStr pattern) ->
  re_match C pattern (PyStr.strip (default EmptyString (text C e))) = inl f ->
  main C (JObj m :: rules) ((root_dir, file :: files) :: walk)
  = Raise (match_exn f).
Proof.
  intros Hext Hp Hq Hx Hc He Hre.
  unfold main. cbn [for_each fst snd]. unfold file_body at 1.
  rewrite Hext. cbn [negb]. unfold document_body. rewrite Hp.
  cbn [for_each]. unfold rule_body at 1. rewrite Hq. cbn [bind]. rewrite Hx.
  cbn [no_result length Nat.eqb result_items bind for_each].
  unfold elem_body at 1, evaluate_condition, dict_get.
  rewrite Hc, He. cbn. by rewrite Hre.
Qed.

Lemma regex_fault_aborts_run_witness :
  main Demo.world [JObj Demo.bad_regex_fields] [("proj", ["ok.arxml"])]
  = Raise ReError.
Proof.
  apply (regex_fault_aborts_run Demo.world Demo.bad_regex_fields [] "proj"
           "ok.arxml" [] [] Demo.ok_tree (JStr "//*[local-name()='A']") "("
           ("A", Some " 1.0.0 ") [ElementNode ("A", Some "2.0")] PatternRejected);
    vm_compute; reflexivity.
Defined.

(** Two more faults of the same kind: a rule that is not an object, and a
    rule whose query is a number. *)
Lemma ill_typed_rules_abort_run :
  main Demo.world [JNum 5] [("proj", ["ok.arxml"])] = Raise AttributeError /\
  main Demo.world [JObj (list_to_map [("xpath", JNum 5)])] [("proj", ["ok.arxml"])]
  = Raise TypeError.
Proof. split; vm_compute; reflexivity. Qed.

(** ** Rules with missing fields *)

(** When the condition of a rule is never satisfied, every matched node
    adds its own FAIL row. *)
Lemma for_each_elem_fail (C : Collaborators) (rel_path file : string)
    (rule_id desc q expected condition : jval) (elements : list (Elem C)) :
  (forall actual, evaluate_condition C actual expected condition = Ok false) ->
  forall results : list row,
    for_each (map ElementNode elements)
      (elem_body C rel_path file rule_id desc q expected condition) results
    = Ok (results ++
          map (fun elem =>
                 [JStr rel_path; JStr file; rule_id; desc; q; expected;
                  JStr (PyStr.strip (default EmptyString (text C elem)));
                  JStr "FAIL"]) elements).
Proof.
  intros Hfalse. induction elements as [|e es IH]; intros results.
  - by rewrite app_nil_r.
  - cbn [for_each map]. unfold elem_body at 1. cbn [item_text bind].
    rewrite Hfalse. cbn [bind]. rewrite IH. by rewrite <- app_assoc.
Qed.

Ltac fill_default H :=
  unfold rule_body, dict_get; rewrite !lookup_insert, ?H;
  repeat case_decide; try discriminate; reflexivity.

(** The part of C10 that holds. A rule that lacks a field is treated
    exactly like the rule with that field set to its default: UNKNOWN for
    the rule id, the empty string for description, path expression,
    condition and expected value, true for the mandatory flag. A rule
    without a condition is satisfied by no node, and when its query matches
    elements only, each of them adds a FAIL row. *)
Theorem missing_fields_take_defaults (C : Collaborators) (root : Tree C)
    (rel_path file : string) (m : gmap string jval) (results : list row) :
  let run := fun fields => rule_body C root rel_path file (JObj fields) results in
  (m !! "rule_id" = None -> run m = run (<["rule_id" := JStr "UNKNOWN"]> m)) /\
  (m !! "description" = None ->
   run m = run (<["description" := JStr EmptyString]> m)) /\
  (m !! "xpath" = None -> run m = run (<["xpath" := JStr EmptyString]> m)) /\
  (m !! "condition" = None ->
   run m = run (<["condition" := JStr EmptyString]> m)) /\
  (m !! "expected" = None ->
   run m = run (<["expected" := JStr EmptyString]> m)) /\
  (m !! "mandatory" = None -> run m = run (<["mandatory" := JBool true]> m)) /\
  (m !! "condition" = None ->
   (forall actual expected,
      evaluate_condition C actual expected
        (dict_get m "condition" (JStr EmptyString)) = Ok false) /\
   forall (q : jval) (e : Elem C) (es : list (Elem C)),
     normalize_xpath_dyn (dict_get m "xpath" (JStr EmptyString)) = Ok q ->
     root_xpath C root q = Some (Nodes (map ElementNode (e :: es))) ->
     exists rows : list row,
       run m = Ok (results ++ rows) /\
       length rows = length (e :: es) /\
       Forall (fun r : row => status r = Some (JStr "FAIL")) rows).
Proof.
  intros run. subst run. cbv beta.
  split; [intros H; fill_default H|].
  split; [intros H; fill_default H|].
  split; [intros H; fill_default H|].
  split; [intros H; fill_default H|].
  split; [intros H; fill_default H|].
  split; [intros H; fill_default H|].
  intros H.
  assert (Hfalse : forall actual expected,
    evaluate_condition C actual expected
      (dict_get m "condition" (JStr EmptyString)) = Ok false).
  { intros actual expected. unfold dict_get. by rewrite H. }
  split; [exact Hfalse|].
  intros q e es Hq Hx. unfold rule_body. rewrite Hq. cbn [bind]. rewrite Hx.
  cbn [no_result map length Nat.eqb result_items bind].
  rewrite (for_each_elem_fail C _ _ _ _ _ _ _ (e :: es))
    by (intros actual; apply Hfalse).
  eexists. split; [reflexivity|]. split; [by rewrite length_map|].
  apply Forall_map, Forall_forall. done.
Qed.

Lemma missing_fields_take_defaults_witness :
  exists rows : list row,
    rule_body Demo.world Demo.ok_tree "ok.arxml" "ok.arxml"
      (JObj Demo.bare_fields) [] = Ok ([] ++ rows) /\
    length rows = 2 /\
    Forall (fun r : row => status r = Some (JStr "FAIL")) rows.
Proof.
  refine (proj2 (proj2 (proj2 (proj2 (proj2 (proj2 (proj2
    (missing_fields_take_defaults Demo.world Demo.ok_tree "ok.arxml" "ok.arxml"
       Demo.bare_fields [])))))) _)
    (JStr "//*[local-name()='A']") ("A", Some " 1.0.0 ") [("A", Some "2.0")] _ _);
    vm_compute; reflexivity.
Defined.

(** C10 (the code departs from it). The claim asks that every node
    matched by a rule without a condition add a FAIL row. Line 99 reads
    [elem.text] outside every [try]: when one of the results of the query
    is no element (a text node, an attribute value), the read raises, no
    row of the rule reaches the report and the run ends. *)
Theorem missing_condition_plain_match_aborts (C : Collaborators)
    (m : gmap string jval) (rules : list jval)
    (root_dir file : string) (files : list string)
    (walk : list (string * list string))
    (root : Tree C) (q : jval)
    (elements : list (Elem C)) (items : list (query_item (Elem C))) :
  PyStr.endswith (PyStr.lower file) ".arxml" = true ->
  etree_parse C (path_join C root_dir file) = inr root ->
  m !! "condition" = None ->
  normalize_xpath_dyn (dict_get m "xpath" (JStr EmptyString)) = Ok q ->
  root_xpath C root q
  = Some (Nodes (map ElementNode elements ++ PlainResult :: items)) ->
  main C (JObj m :: rules) ((root_dir, file :: files) :: walk)
  = Raise AttributeError.
Proof.
  intros Hext Hp Hc Hq Hx.
  assert (Hloop : forall rel_path rule_id desc expected (results : list row),
    for_each (map ElementNode elements ++ PlainResult :: items)
      (elem_body C rel_path file rule_id desc q expected
         (dict_get m "condition" (JStr EmptyString))) results
    = Raise AttributeError).
  { intros rel_path rule_id desc expected. clear Hx.
    induction elements as [|e es IH]; intros results; [reflexivity|].
    cbn [map app for_each]. unfold elem_body at 1. cbn [item_text bind].
    unfold dict_get at 1. rewrite Hc. cbn. apply IH. }
  unfold main. cbn [for_each fst snd]. unfold file_body at 1.
  rewrite Hext. cbn [negb]. unfold document_body. rewrite Hp.
  cbn [for_each]. unfold rule_body at 1. rewrite Hq. cbn [bind]. rewrite Hx.
  replace (no_result C _) with false by (cbn; by destruct elements).
  cbn [result_items bind]. by rewrite Hloop.
Qed.

Lemma missing_condition_plain_match_aborts_witness :
  main Demo.world [JObj Demo.text_fields] [("proj", ["ok.arxml"])]
  = Raise AttributeError.
Proof.
  apply (missing_condition_plain_match_aborts Demo.world Demo.text_fields []
           "proj" "ok.arxml" [] [] Demo.ok_tree
           (JStr "//*[local-name()='A']/text()") [] [PlainResult]);
    vm_compute; reflexivity.
Defined.

(** The rule with no field at all, on the sample document: its query is
    the closing text alone, which the engine refuses. *)
Lemma empty_rule_example :
  rule_body Demo.world Demo.ok_tree "ok.arxml" "ok.arxml" (JObj ∅) []
  = Ok [[JStr "ok.arxml"; JStr "ok.arxml"; JStr "UNKNOWN"; JStr EmptyString;
         JStr "']"; JStr EmptyString; JStr EmptyString; JStr "INVALID_XPATH"]].
Proof. vm_compute. reflexivity. Qed.

(** * Further properties of the script *)

(** ** More on strings *)

Lemma str_app_cons (c : ascii) (s t : string) :
  String c s +:+ t = String c (s +:+ t).
Proof. reflexivity. Qed.

Lemma str_app_nil_r (s : string) : s +:+ EmptyString = s.
Proof. induction s as [|c s IH]; [done|]. by rewrite str_app_cons, IH. Qed.

Lemma str_app_assoc (a b c : string) : (a +:+ b) +:+ c = a +:+ (b +:+ c).
Proof. induction a as [|x a IH]; [done|]. by rewrite !str_app_cons, IH. Qed.

Lemma str_app_length (a b : string) :
  String.length (a +:+ b) = String.length a + String.length b.
Proof.
  induction a as [|x a IH]; [done|].
  rewrite str_app_cons. cbn [String.length]. by rewrite IH.
Qed.

Lemma contains_char_cons (c x : ascii) (s : string) :
  PyStr.contains (String c EmptyString) (String x s)
  = (if Ascii.ascii_dec c x then true else false)
    || PyStr.contains (String c EmptyString) s.
Proof. by rewrite contains_unfold, prefix_char. Qed.

Lemma contains_char_lstrip (c : ascii) (s : string) :
  PyStr.contains (String c EmptyString) (PyStr.lstrip s) = true ->
  PyStr.contains (String c EmptyString) s = true.
Proof.
  induction s as [|x s IH]; [done|]. cbn [PyStr.lstrip].
  destruct (PyStr.isspace x); [|done].
  intros H. by apply contains_cons, IH.
Qed.

Lemma contains_char_rstrip (c : ascii) (s : string) :
  PyStr.contains (String c EmptyString) (PyStr.rstrip s) = true ->
  PyStr.contains (String c EmptyString) s = true.
Proof.
  induction s as [|x s IH]; [done|]. cbn [PyStr.rstrip].
  rewrite (contains_char_cons c x s).
  destruct (PyStr.rstrip s) as [|y r] eqn:E.
  - destruct (PyStr.isspace x); [done|].
    rewrite contains_char_cons. intros H.
    apply orb_true_iff in H as [H|H]; [by rewrite H | done].
  - rewrite contains_char_cons. intros H.
    apply orb_true_iff in H as [H|H]; [by rewrite H|].
    rewrite (IH H). apply orb_true_r.
Qed.

Lemma contains_char_strip (c : ascii) (s : string) :
  PyStr.contains (String c EmptyString) (PyStr.strip s) = true ->
  PyStr.contains (String c EmptyString) s = true.
Proof. intros H. by apply contains_char_lstrip, contains_char_rstrip. Qed.

(** Splitting at commas: no piece holds a comma, and a text without a comma
    is one piece. *)
Lemma split_comma_pieces (s cur : string) :
  PyStr.contains "," cur = false ->
  Forall (fun piece => PyStr.contains "," piece = false)
         (PyStr.split_from "," 0 cur s).
Proof.
  revert cur. induction s as [|c s IH]; intros cur Hcur.
  - by repeat constructor.
  - cbn [PyStr.split_from].
    destruct (String.prefix "," (String c s)) eqn:E.
    + constructor; [done | by apply IH].
    + apply IH. rewrite contains_char_app, Hcur, contains_char_cons.
      rewrite prefix_char in E. by rewrite E.
Qed.

Lemma split_comma_single (s cur : string) :
  PyStr.contains "," s = false ->
  PyStr.split_from "," 0 cur s = [cur +:+ s].
Proof.
  revert cur. induction s as [|c s IH]; intros cur H.
  - by rewrite str_app_nil_r.
  - rewrite contains_unfold in H. apply orb_false_iff in H as [E H].
    cbn [PyStr.split_from]. rewrite E, IH by done.
    by rewrite str_app_assoc.
Qed.

(** ** More on the condition evaluator *)

Lemma is_str_true (n : string) (v : jval) : is_str n v = true <-> v = JStr n.
Proof.
  destruct v as [| | |t| |]; simpl; try (split; [discriminate | discriminate]).
  rewrite String.eqb_eq. split; [by intros -> | by intros [= ->]].
Qed.

Lemma is_str_false (n : string) (v : jval) : is_str n v = false <-> v <> JStr n.
Proof.
  rewrite <- is_str_true. destruct (is_str n v); split; try done.
  all: intros H; by destruct H.
Qed.

Lemma py_eq_true (actual : option string) (expected : jval) :
  py_eq actual expected = true <->
  match actual with
  | Some a => expected = JStr a
  | None => expected = JNull
  end.
Proof.
  destruct actual as [a|], expected as [| | |e| |]; simpl;
    try (split; [discriminate | discriminate]); try done.
  rewrite String.eqb_eq. split; [by intros -> | by intros [= ->]].
Qed.

(** X1. The evaluator raises in exactly three situations: IN with an
    expected value that is no [str] (it has no [split]), REGEX with an
    expected value that is no [str], and REGEX with a pattern on which the
    matcher fails, whose exception then passes through as it is (the error
    of a pattern that does not compile, an overflow, a recursion too deep).
    Everywhere else it returns a truth value. *)
Theorem evaluate_condition_faults (C : Collaborators)
    (actual : option string) (expected condition : jval) (x : exn) :
  evaluate_condition C actual expected condition = Raise x <->
  (condition = JStr "IN" /\ (forall e, expected <> JStr e) /\ x = AttributeError) \/
  (condition = JStr "REGEX" /\ (forall p, expected <> JStr p) /\ x = TypeError) \/
  (condition = JStr "REGEX" /\
   exists p f, expected = JStr p /\
               re_match C p (default EmptyString actual) = inl f /\
               x = match_exn f).
Proof.
  split.
  - unfold evaluate_condition.
    destruct (is_str "EQUALS" condition); [discriminate|].
    destruct (is_str "NOT_EQUALS" condition); [discriminate|].
    destruct (is_str "EXISTS" condition); [discriminate|].
    destruct (is_str "IN" condition) eqn:Ein.
    { apply is_str_true in Ein as ->.
      destruct expected as [| | |e| |]; try (intros [= <-]; left; by repeat split).
      all: simpl; discriminate. }
    destruct (is_str "REGEX" condition) eqn:Ere; [|discriminate].
    apply is_str_true in Ere as ->. intros H. right.
    destruct expected as [| | |p| |];
      try (injection H as <-; left; by repeat split).
    destruct (re_match C p (default EmptyString actual)) as [f|b] eqn:Em;
      [|discriminate].
    injection H as <-. right. split; [done|]. by exists p, f.
  - intros [(-> & He & ->) | [(-> & He & ->) | (-> & p & f & -> & Hm & ->)]].
    + destruct expected as [| | |e| |]; try reflexivity. by destruct (He e).
    + destruct expected as [| | |p| |]; try reflexivity. by destruct (He p).
    + unfold evaluate_condition. cbn. by rewrite Hm.
Qed.

(** X2. A condition that is none of the five known names (another word,
    another letter case, a value that is no [str]) is satisfied by nothing
    and raises nothing. *)
Theorem unknown_condition_fails_closed (C : Collaborators)
    (actual : option string) (expected condition : jval) :
  (forall n, In n known_conditions -> condition <> JStr n) ->
  evaluate_condition C actual expected condition = Ok false.
Proof.
  intros H. unfold evaluate_condition.
  assert (Hn : forall n, In n known_conditions -> is_str n condition = false).
  { intros n Hin. by apply is_str_false, H. }
  rewrite !Hn; [done | | | | |]; simpl; tauto.
Qed.

Lemma unknown_condition_fails_closed_witness :
  evaluate_condition Demo.world (Some "1.0.0") (JStr "1.0.0") (JStr "equals")
  = Ok false.
Proof.
  apply (unknown_condition_fails_closed Demo.world (Some "1.0.0") (JStr "1.0.0")
           (JStr "equals")).
  intros n Hin. simpl in Hin.
  destruct Hin as [<-|[<-|[<-|[<-|[<-|[]]]]]]; discriminate.
Defined.

(** X3. EQUALS and NOT_EQUALS never raise and always disagree; EQUALS holds
    exactly when the expected value is the very same [str] as the actual
    one (or both are null). *)
Theorem not_equals_negates_equals (C : Collaborators)
    (actual : option string) (expected : jval) :
  exists b : bool,
    evaluate_condition C actual expected (JStr "EQUALS") = Ok b /\
    evaluate_condition C actual expected (JStr "NOT_EQUALS") = Ok (negb b) /\
    (b = true <-> match actual with
                  | Some a => expected = JStr a
                  | None => expected = JNull
                  end).
Proof.
  exists (py_eq actual expected).
  split; [reflexivity | split; [reflexivity | apply py_eq_true]].
Qed.

(** X4. A value that contains a comma is IN no list: the expected text is
    cut at every comma, so no piece can hold one. *)
Theorem in_never_matches_comma (C : Collaborators) (a e : string) :
  PyStr.contains "," a = true ->
  evaluate_condition C (Some a) (JStr e) (JStr "IN") = Ok false.
Proof.
  intros Ha. unfold evaluate_condition. cbn. f_equal.
  destruct (existsb _ _) eqn:E; [|done].
  apply existsb_exists in E as (t & Hin & Heq).
  apply String.eqb_eq in Heq as <-.
  apply in_map_iff in Hin as (piece & <- & Hin).
  pose proof (split_comma_pieces e EmptyString eq_refl) as Hall.
  rewrite Forall_forall in Hall.
  apply contains_char_strip in Ha.
  rewrite (Hall piece) in Ha; [done | by apply list_elem_of_In].
Qed.

Lemma in_never_matches_comma_witness :
  evaluate_condition Demo.world (Some "A,B") (JStr "A,B") (JStr "IN") = Ok false.
Proof. apply (in_never_matches_comma Demo.world "A,B" "A,B"). reflexivity. Defined.

(** X5. When the expected text holds no comma, IN is equality with the
    trimmed expected text. *)
Theorem in_single_is_trimmed_equality (C : Collaborators) (a e : string) :
  PyStr.contains "," e = false ->
  evaluate_condition C (Some a) (JStr e) (JStr "IN")
  = Ok (String.eqb a (PyStr.strip e)).
Proof.
  intros He. unfold evaluate_condition. cbn.
  rewrite split_comma_single by done. cbn. by rewrite orb_false_r.
Qed.

Lemma in_single_is_trimmed_equality_witness :
  evaluate_condition Demo.world (Some "B") (JStr "  B ") (JStr "IN")
  = Ok (String.eqb "B" (PyStr.strip "  B ")).
Proof.
  apply (in_single_is_trimmed_equality Demo.world "B" "  B "). reflexivity.
Defined.

(** ** More on the loops *)

Lemma for_each_app {A S : Type} (xs ys : list A)
    (body : A -> S -> result S) (s : S) :
  for_each (xs ++ ys) body s = bind (for_each xs body s) (for_each ys body).
Proof.
  revert s. induction xs as [|x xs IH]; intros s; [done|].
  cbn [app for_each]. destruct (body x s) as [s1|e]; [apply IH | done].
Qed.

(** A loop over bodies that cannot fail cannot fail. *)
Lemma for_each_total {A S : Type} (xs : list A) (body : A -> S -> result S) :
  (forall x s, In x xs -> exists s', body x s = Ok s') ->
  forall s, exists s', for_each xs body s = Ok s'.
Proof.
  induction xs as [|x xs IH]; intros Hbody s; [by exists s|].
  destruct (Hbody x s) as (s1 & H1); [by left|].
  cbn [for_each]. rewrite H1. apply IH.
  intros y t Hy. apply Hbody. by right.
Qed.

Lemma for_each_framed {A : Type} (xs : list A)
    (body : A -> list row -> result (list row)) :
  framed body -> framed (fun _ : unit => for_each xs body).
Proof.
  intros Hbody _. induction xs as [|x xs IH]; intros s.
  - cbn. by rewrite app_nil_r.
  - cbn [for_each]. rewrite (Hbody x s).
    destruct (body x []) as [r1|e]; [|done]. cbn [bind].
    rewrite (IH (s ++ r1)), (IH r1).
    destruct (for_each xs body []) as [r2|e]; [|done]. cbn [bind].
    by rewrite app_assoc.
Qed.

Lemma elem_body_framed (C : Collaborators) (rel_path file : string)
    (rule_id desc q expected condition : jval) :
  framed (elem_body C rel_path file rule_id desc q expected condition).
Proof.
  intros elem s. unfold elem_body.
  destruct (item_text C elem) as [elem_text|e]; [|done]. cbn [bind].
  by destruct (evaluate_condition C _ expected condition).
Qed.

Lemma rule_body_framed (C : Collaborators) (root : Tree C)
    (rel_path file : string) :
  framed (rule_body C root rel_path file).
Proof.
  intros rule s. unfold rule_body. destruct rule as [| | | | |m]; try done.
  destruct (normalize_xpath_dyn _) as [q|e]; [|done]. cbn [bind].
  destruct (root_xpath C root q) as [elements|]; [|done].
  destruct (no_result C elements); [done|].
  destruct (result_items C elements) as [items|e]; [|done]. cbn [bind].
  apply (for_each_framed items _ (elem_body_framed C _ _ _ _ _ _ _) tt).
Qed.

Lemma file_body_framed (C : Collaborators) (rules : list jval) (root_dir : string) :
  framed (file_body C rules root_dir).
Proof.
  intros file s. unfold file_body.
  destruct (negb _); [cbn; by rewrite app_nil_r|].
  unfold document_body. destruct (etree_parse C _) as [msg|root]; [done|].
  apply (for_each_framed rules _ (rule_body_framed C root _ _) tt).
Qed.

Lemma directory_framed (C : Collaborators) (rules : list jval) :
  framed (fun (d : string * list string) results =>
            for_each d.2 (file_body C rules d.1) results).
Proof.
  intros d s. apply (for_each_framed d.2 _ (file_body_framed C rules d.1) tt).
Qed.

(** ** More on the engine *)

(** X6. The rows a file adds do not depend on the rows recorded before it:
    running the file on any [results] is running it on the empty list and
    appending. *)
Theorem file_rows_independent_of_history (C : Collaborators)
    (rules : list jval) (root_dir file : string) (results : list row) :
  file_body C rules root_dir file results
  = (rows <- file_body C rules root_dir file [] ;; Ok (results ++ rows)).
Proof. apply file_body_framed. Qed.

(** X7. The report follows the scan order: the rows of a walk cut in two
    are the rows of the first part followed by the rows of the second, and
    the run fails when one of the two fails. *)
Theorem report_follows_scan_order (C : Collaborators) (rules : list jval)
    (walk1 walk2 : list (string * list string)) :
  main C rules (walk1 ++ walk2)
  = (rows1 <- main C rules walk1 ;;
     rows2 <- main C rules walk2 ;;
     Ok (rows1 ++ rows2)).
Proof.
  unfold main. destruct rules as [|rule rules]; [done|].
  rewrite for_each_app.
  destruct (for_each walk1 _ []) as [rows1|e]; [|done]. cbn [bind].
  apply (for_each_framed walk2 _ (directory_framed C (rule :: rules)) tt).
Qed.

(** One matched node, one row. *)
Lemma for_each_elem_rows (C : Collaborators) (rel_path file : string)
    (rule_id desc q expected condition : jval) (ok : Elem C -> bool)
    (elements : list (Elem C)) :
  (forall elem, In elem elements ->
     evaluate_condition C
       (Some (PyStr.strip (default EmptyString (text C elem))))
       expected condition = Ok (ok elem)) ->
  forall results : list row,
    for_each (map ElementNode elements)
      (elem_body C rel_path file rule_id desc q expected condition) results
    = Ok (results ++
          map (fun elem =>
                 [JStr rel_path; JStr file; rule_id; desc; q; expected;
                  JStr (PyStr.strip (default EmptyString (text C elem)));
                  JStr (if ok elem then "PASS" else "FAIL")]) elements).
Proof.
  induction elements as [|e es IH]; intros Hok results.
  - by rewrite app_nil_r.
  - cbn [for_each map]. unfold elem_body at 1. cbn [item_text bind].
    rewrite (Hok e) by (by left). cbn [bind].
    rewrite IH by (intros el Hel; apply Hok; by right).
    by rewrite <- app_assoc.
Qed.

(** X8. When the query of a rule returns a list of elements that is not
    empty and the condition can be evaluated on each of them, the rule adds
    exactly one row per element, in the order of the match: the row holds
    the trimmed text of the element and PASS or FAIL as the condition
    decides for that element alone. *)
Theorem matched_nodes_one_row_each (C : Collaborators) (root : Tree C)
    (rel_path file : string) (m : gmap string jval) (q : jval)
    (ok : Elem C -> bool) (elements : list (Elem C)) (results : list row) :
  normalize_xpath_dyn (dict_get m "xpath" (JStr EmptyString)) = Ok q ->
  root_xpath C root q = Some (Nodes (map ElementNode elements)) ->
  elements <> [] ->
  (forall elem, In elem elements ->
     evaluate_condition C
       (Some (PyStr.strip (default EmptyString (text C elem))))
       (dict_get m "expected" (JStr EmptyString))
       (dict_get m "condition" (JStr EmptyString)) = Ok (ok elem)) ->
  rule_body C root rel_path file (JObj m) results
  = Ok (results ++
        map (fun elem =>
               [JStr rel_path; JStr file;
                dict_get m "rule_id" (JStr "UNKNOWN");
                dict_get m "description" (JStr EmptyString);
                q; dict_get m "expected" (JStr EmptyString);
                JStr (PyStr.strip (default EmptyString (text C elem)));
                JStr (if ok elem then "PASS" else "FAIL")]) elements).
Proof.
  intros Hq Hx Hne Hok. unfold rule_body. rewrite Hq. cbn [bind]. rewrite Hx.
  destruct elements as [|e es]; [done|].
  cbn [no_result map length Nat.eqb result_items bind].
  by apply (for_each_elem_rows C _ _ _ _ _ _ _ ok (e :: es)).
Qed.

Lemma matched_nodes_one_row_each_witness :
  rule_body Demo.world Demo.ok_tree "ok.arxml" "ok.arxml"
    (JObj (<["condition" := JStr "EQUALS"]>
             (<["expected" := JStr "1.0.0"]> Demo.bare_fields))) []
  = Ok ([] ++
        map (fun elem : string * option string =>
               [JStr "ok.arxml"; JStr "ok.arxml";
                JStr "UNKNOWN"; JStr EmptyString;
                JStr "//*[local-name()='A']"; JStr "1.0.0";
                JStr (PyStr.strip (default EmptyString elem.2));
                JStr (if String.eqb (PyStr.strip (default EmptyString elem.2)) "1.0.0"
                      then "PASS" else "FAIL")])
            [("A", Some " 1.0.0 "); ("A", Some "2.0")]).
Proof.
  refine (matched_nodes_one_row_each Demo.world Demo.ok_tree "ok.arxml" "ok.arxml"
            (<["condition" := JStr "EQUALS"]>
               (<["expected" := JStr "1.0.0"]> Demo.bare_fields))
            (JStr "//*[local-name()='A']")
            (fun elem => String.eqb (PyStr.strip (default EmptyString elem.2)) "1.0.0")
            [("A", Some " 1.0.0 "); ("A", Some "2.0")] [] _ _ _ _).
  - vm_compute. reflexivity.
  - vm_compute. reflexivity.
  - discriminate.
  - intros elem [<-|[<-|[]]]; vm_compute; reflexivity.
Defined.

Lemma elem_body_one_row (C : Collaborators) (rel_path file : string)
    (rule_id desc q expected condition : jval) (elem : query_item (Elem C))
    (s s' : list row) :
  elem_body C rel_path file rule_id desc q expected condition elem s = Ok s' ->
  exists r, s' = s ++ [r] /\ row_of_pair rel_path file rule_id r.
Proof.
  unfold elem_body. intros H. apply bind_ok in H as (elem_text & _ & H).
  apply bind_ok in H as (ok & _ & H).
  injection H as <-. eexists. split; [reflexivity|]. by repeat split.
Qed.

(** A result that passes the test of line 90 has something to run over. *)
Lemma result_items_nonempty (C : Collaborators)
    (elements : query_value (Elem C)) (items : list (query_item (Elem C))) :
  no_result C elements = false -> result_items C elements = Ok items ->
  items <> [].
Proof.
  destruct elements as [l|nz|b|t]; cbn; try discriminate.
  - intros Hl [= <-]. by destruct l.
  - intros Ht [= <-]. by destruct t.
Qed.

(** X9. No pair of a parsed document and a rule is dropped: whenever a rule
    runs to its end it has added at least one row, and every row it added
    names that document and that rule. *)
Theorem rule_leaves_a_row (C : Collaborators) (root : Tree C)
    (rel_path file : string) (m : gmap string jval) (results results' : list row) :
  rule_body C root rel_path file (JObj m) results = Ok results' ->
  exists rows : list row,
    results' = results ++ rows /\
    rows <> [] /\
    Forall (row_of_pair rel_path file (dict_get m "rule_id" (JStr "UNKNOWN"))) rows.
Proof.
  unfold rule_body. intros H. apply bind_ok in H as (q & _ & H).
  destruct (root_xpath C root q) as [elements|];
    [destruct (no_result C elements) eqn:Eno|].
  - injection H as <-. eexists. split; [reflexivity|].
    split; [done|]. by repeat constructor.
  - apply bind_ok in H as (items & Hitems & H).
    pose proof (result_items_nonempty C _ _ Eno Hitems) as Hne.
    destruct items as [|e es]; [done|].
    cbn [for_each] in H. apply bind_ok in H as (s1 & H1 & H2).
    apply elem_body_one_row in H1 as (r & -> & Hr).
    eapply (for_each_appends (row_of_pair rel_path file
              (dict_get m "rule_id" (JStr "UNKNOWN")))) in H2
      as (rows & -> & Hrows).
    + exists (r :: rows). split; [by rewrite <- app_assoc|].
      split; [done | by constructor].
    + intros x t t' Hx. apply elem_body_one_row in Hx as (r' & -> & Hr').
      exists [r']. split; [done|]. by constructor.
  - injection H as <-. eexists. split; [reflexivity|].
    split; [done|]. by repeat constructor.
Qed.

Lemma rule_leaves_a_row_witness :
  exists rows : list row,
    [[JStr "ok.arxml"; JStr "ok.arxml"; JStr "R4"; JStr EmptyString;
      JStr "//*[local-name()='Z']"; JStr EmptyString; JStr EmptyString;
      JStr "SKIP"]] = [] ++ rows /\
    rows <> [] /\
    Forall (row_of_pair "ok.arxml" "ok.arxml"
              (dict_get Demo.optional_fields "rule_id" (JStr "UNKNOWN"))) rows.
Proof.
  apply (rule_leaves_a_row Demo.world Demo.ok_tree "ok.arxml" "ok.arxml"
           Demo.optional_fields []).
  vm_compute. reflexivity.
Defined.

Lemma unparsable_directory (C : Collaborators) (rules : list jval)
    (root_dir : string) (files : list string) :
  (forall f, In f files -> accepted f = true ->
     exists msg, etree_parse C (path_join C root_dir f) = inl msg) ->
  forall s, exists rows,
    for_each files (file_body C rules root_dir) s = Ok (s ++ rows) /\
    Forall2 parse_error_row (List.filter accepted files) rows.
Proof.
  induction files as [|f fs IH]; intros Hall s.
  - exists []. split; [by rewrite app_nil_r | constructor].
  - assert (Hfs : forall g, In g fs -> accepted g = true ->
              exists msg, etree_parse C (path_join C root_dir g) = inl msg).
    { intros g Hg. apply Hall. by right. }
    cbn [for_each List.filter]. unfold file_body at 1. fold (accepted f).
    destruct (accepted f) eqn:Ef; cbn [negb].
    + destruct (Hall f (or_introl eq_refl) Ef) as (msg & Hp).
      unfold document_body. rewrite Hp. cbn [bind].
      destruct (IH Hfs (s ++ [[JStr (relpath C (path_join C root_dir f) (ARXML_DIR C));
                              JStr f; JStr "PARSE_ERROR"; JStr EmptyString;
                              JStr EmptyString; JStr msg; JStr "FAIL"]]))
        as (rows & -> & Hrows).
      eexists (_ :: rows). split; [by rewrite <- app_assoc|].
      constructor; [by repeat split | done].
    + cbn [bind]. apply IH, Hfs.
Qed.

Lemma unparsable_walk (C : Collaborators) (rules : list jval)
    (walk : list (string * list string)) :
  (forall d f, In d walk -> In f d.2 -> accepted f = true ->
     exists msg, etree_parse C (path_join C d.1 f) = inl msg) ->
  forall s, exists rows,
    for_each walk
      (fun d results => for_each d.2 (file_body C rules d.1) results) s
    = Ok (s ++ rows) /\
    Forall2 parse_error_row (accepted_files walk) rows.
Proof.
  induction walk as [|d walk IH]; intros Hall s.
  - exists []. split; [by rewrite app_nil_r | constructor].
  - cbn [for_each].
    destruct (unparsable_directory C rules d.1 d.2
                (fun f Hf => Hall d f (or_introl eq_refl) Hf) s)
      as (rows1 & -> & H1).
    cbn [bind].
    destruct (IH (fun d' f Hd => Hall d' f (or_intror Hd)) (s ++ rows1))
      as (rows2 & -> & H2).
    exists (rows1 ++ rows2). split; [by rewrite <- app_assoc|].
    unfold accepted_files. cbn [flat_map]. by apply Forall2_app.
Qed.



(** ** When the run completes, and how it ends otherwise *)

Lemma evaluate_condition_safe (C : Collaborators) (actual : option string)
    (expected condition : jval) :
  (condition = JStr "IN" -> exists e, expected = JStr e) ->
  (condition = JStr "REGEX" ->
   exists p, expected = JStr p /\ forall s, exists b, re_match C p s = inr b) ->
  exists b, evaluate_condition C actual expected condition = Ok b.
Proof.
  intros Hin Hre. unfold evaluate_condition.
  destruct (is_str "EQUALS" condition); [by eexists|].
  destruct (is_str "NOT_EQUALS" condition); [by eexists|].
  destruct (is_str "EXISTS" condition); [by eexists|].
  destruct (is_str "IN" condition) eqn:Ein.
  { apply is_str_true in Ein. destruct (Hin Ein) as (e & ->). by eexists. }
  destruct (is_str "REGEX" condition) eqn:Ere; [|by eexists].
  apply is_str_true in Ere. destruct (Hre Ere) as (p & -> & Hp).
  destruct (Hp (default EmptyString actual)) as (b & ->). by eexists.
Qed.

Lemma safe_rule_total (C : Collaborators) (root : Tree C)
    (rel_path file : string) (rule : jval) (s : list row) :
  safe_rule C rule -> exists s', rule_body C root rel_path file rule s = Ok s'.
Proof.
  intros (m & x & -> & Hx & Hans & Hin & Hre). unfold rule_body.
  rewrite Hx. cbn [normalize_xpath_dyn bind root_xpath].
  destruct (xpath C root (normalize_xpath x)) as [v|] eqn:Ev; [|by eexists].
  destruct (Hans root v Ev) as [Hno|(elements & ->)]; [rewrite Hno; by eexists|].
  destruct (no_result C _); [by eexists|]. cbn [result_items bind].
  apply for_each_total. intros elem t Hel.
  apply in_map_iff in Hel as (e & <- & _). unfold elem_body. cbn [item_text bind].
  destruct (evaluate_condition_safe C
              (Some (PyStr.strip (default EmptyString (text C e))))
              _ _ Hin Hre) as (b & ->).
  by eexists.
Qed.



Lemma for_each_raise {A S : Type} (xs : list A) (body : A -> S -> result S)
    (s : S) (e : exn) :
  for_each xs body s = Raise e -> exists x t, In x xs /\ body x t = Raise e.
Proof.
  revert s. induction xs as [|x xs IH]; intros s H; [discriminate|].
  cbn [for_each] in H. destruct (body x s) as [s1|e1] eqn:E.
  - destruct (IH s1 H) as (y & t & Hy & Ht). exists y, t. split; [by right | done].
  - injection H as <-. exists x, s. split; [by left | done].
Qed.

Lemma rule_body_raises (C : Collaborators) (root : Tree C)
    (rel_path file : string) (rule : jval) (s : list row) (e : exn) :
  rule_body C root rel_path file rule s = Raise e -> engine_fault e.
Proof.
  unfold rule_body, engine_fault.
  destruct rule as [| | | | |m]; try (intros [= <-]; tauto).
  destruct (normalize_xpath_dyn _) as [q|e1] eqn:Eq.
  - cbn [bind]. destruct (root_xpath C root q) as [elements|]; [|discriminate].
    destruct (no_result C elements); [discriminate|].
    destruct (result_items C elements) as [items|e3] eqn:Ei;
      [|by destruct elements; intros [= <-]; try discriminate Ei;
          injection Ei as <-; tauto].
    cbn [bind].
    intros H. apply for_each_raise in H as (x & t & _ & H).
    unfold elem_body in H.
    destruct (item_text C x) as [elem_text|e4] eqn:Et;
      [|by destruct x; injection H as <-; try discriminate Et;
          injection Et as <-; tauto].
    cbn [bind] in H.
    destruct (evaluate_condition C _ _ _) as [b|e2] eqn:Ee; [discriminate|].
    injection H as <-. revert Ee. unfold evaluate_condition.
    repeat (destruct (is_str _ _); [discriminate|]).
    destruct (is_str "IN" _).
    { destruct (dict_get m "expected" _); try (intros [= <-]; tauto).
      all: cbn; discriminate. }
    destruct (is_str "REGEX" _); [|discriminate].
    destruct (dict_get m "expected" _); try (intros [= <-]; tauto).
    destruct (re_match C _ _) as [f|b];
      [intros [= <-]; right; right; by exists f | discriminate].
  - cbn [bind]. intros [= <-]. revert Eq. unfold normalize_xpath_dyn.
    destruct (dict_get m "xpath" _) as [| | | |l|m']; try (intros [= <-]; tauto).
    + destruct (existsb _ l); [discriminate | intros [= <-]; tauto].
    + destruct (bool_decide _); [discriminate | intros [= <-]; tauto].
Qed.

Lemma main_raises (C : Collaborators) (rules : list jval)
    (walk : list (string * list string)) (e : exn) :
  rules <> [] -> main C rules walk = Raise e -> engine_fault e.
Proof.
  intros Hne. unfold main. destruct rules as [|rule rules]; [done|].
  intros H. apply for_each_raise in H as (d & s & _ & H).
  apply for_each_raise in H as (file & t & _ & H).
  unfold file_body in H. destruct (negb _); [discriminate|].
  unfold document_body in H. destruct (etree_parse C _); [discriminate|].
  apply for_each_raise in H as (r & u & _ & H).
  by apply rule_body_raises in H.
Qed.

Lemma py_iter_nil (v : jval) (n : nat) :
  py_len v = Ok n -> (py_iter v = Ok [] <-> n = 0).
Proof.
  destruct v as [| | |s|l|m]; try discriminate; intros [= <-];
    unfold py_iter.
  - destruct s; cbn; split; (done || discriminate).
  - destruct l; cbn; split; (done || discriminate).
  - split.
    + intros H. injection H as H.
      apply map_eq_nil, map_to_list_empty_iff in H. rewrite H.
      apply map_size_empty.
    + intros H. apply map_size_empty_iff in H. rewrite H.
      by rewrite map_to_list_empty.
Qed.

Lemma py_iter_defined (v : jval) (n : nat) :
  py_len v = Ok n -> exists items, py_iter v = Ok items.
Proof. destruct v; try discriminate; intros _; by eexists. Qed.

(** X12. The script ends with the message that no rules were loaded in one
    case only: the rule file is an object whose rules value has length
    zero, which is also what a file without a rules entry gives. No other
    path through the loops leaves with [SystemExit]. *)
Theorem script_exit_iff_no_rules (C : Collaborators) (top : jval)
    (walk : list (string * list string)) :
  script C top walk = Raise (SystemExit "ERROR: No rules loaded") <->
  exists m : gmap string jval,
    top = JObj m /\ py_len (dict_get m "rules" (JArr [])) = Ok 0.
Proof.
  unfold script, load_rules. split.
  - destruct top as [| | | | |m]; try discriminate. cbn [bind].
    destruct (py_len (dict_get m "rules" (JArr []))) as [n|e] eqn:En;
      [| revert En; destruct (dict_get m "rules" (JArr []));
         intros [= <-]; discriminate].
    cbn [bind]. destruct (py_iter_defined _ _ En) as (items & Hit).
    rewrite Hit. cbn [bind]. intros H.
    exists m. split; [done|]. rewrite En. f_equal.
    apply (py_iter_nil _ _ En). rewrite Hit. f_equal.
    destruct items as [|item items]; [done|].
    apply main_raises in H; [|done].
    destruct H as [H|[H|[f H]]]; [done | done | by destruct f].
  - intros (m & -> & Hlen). cbn [bind]. rewrite Hlen. cbn [bind].
    rewrite (proj2 (py_iter_nil _ _ Hlen) eq_refl). reflexivity.
Qed.

(** A rule file without a rules entry. *)
Lemma script_without_rules_key (C : Collaborators) (m : gmap string jval)
    (walk : list (string * list string)) :
  m !! "rules" = None ->
  script C (JObj m) walk = Raise (SystemExit "ERROR: No rules loaded").
Proof. intros H. unfold script, load_rules, dict_get. by rewrite H. Qed.

(** A rules value that has no length ends the script at line 48, before
    the check for an empty rule set. *)
Lemma script_rules_without_length :
  script Demo.world (JObj (list_to_map [("rules", JNull)])) [] = Raise TypeError /\
  script Demo.world (JArr []) [] = Raise AttributeError.
Proof. split; vm_compute; reflexivity. Qed.

(** ** The file name test *)

Lemma drop_app (a b : string) : PyStr.drop (String.length a) (a +:+ b) = b.
Proof. induction a as [|c a IH]; [by destruct b | exact IH]. Qed.

Lemma split_at (n : nat) (s : string) :
  n <= String.length s ->
  exists a, s = a +:+ PyStr.drop n s /\ String.length a = n.
Proof.
  revert s. induction n as [|n IH]; intros s Hn.
  - exists EmptyString. split; [by destruct s | done].
  - destruct s as [|c s]; [cbn in Hn; lia|].
    destruct (IH s) as (a & Ha & Hl); [cbn in Hn; lia|].
    exists (String c a). split; [|by cbn; rewrite Hl].
    rewrite str_app_cons. cbn [PyStr.drop]. by rewrite <- Ha.
Qed.

Lemma endswith_iff (s suffix : string) :
  PyStr.endswith s suffix = true <-> exists a, s = a +:+ suffix.
Proof.
  unfold PyStr.endswith. rewrite andb_true_iff, Nat.leb_le, String.eqb_eq. split.
  - intros [Hl Hd].
    destruct (split_at (String.length s - String.length suffix) s) as (a & Ha & _);
      [lia|].
    exists a. by rewrite Hd in Ha.
  - intros (a & ->). rewrite str_app_length. split; [lia|].
    replace (String.length a + String.length suffix - String.length suffix)
      with (String.length a) by lia.
    apply drop_app.
Qed.

Lemma lower_app (a b : string) :
  PyStr.lower (a +:+ b) = PyStr.lower a +:+ PyStr.lower b.
Proof.
  induction a as [|c a IH]; [done|].
  rewrite str_app_cons. cbn [PyStr.lower]. by rewrite IH.
Qed.

Lemma lower_split (s x y : string) :
  PyStr.lower s = x +:+ y ->
  exists a b, s = a +:+ b /\ PyStr.lower a = x /\ PyStr.lower b = y.
Proof.
  revert s. induction x as [|c x IH]; intros s H.
  - by exists EmptyString, s.
  - destruct s as [|d s]; [discriminate|].
    rewrite str_app_cons in H. cbn [PyStr.lower] in H. injection H as Hc H.
    destruct (IH s H) as (a & b & -> & Ha & Hb).
    exists (String d a), b. split; [done|]. split; [|done].
    cbn [PyStr.lower]. by rewrite Hc, Ha.
Qed.

(** X13. A file is scanned exactly when its name ends in the extension
    written in any mix of upper and lower case: the name splits into a base
    and an ending whose lower-case form is [.arxml]. *)
Theorem accepted_iff_extension (file : string) :
  accepted file = true <->
  exists base ext, file = base +:+ ext /\ PyStr.lower ext = ".arxml".
Proof.
  unfold accepted. rewrite endswith_iff. split.
  - intros (a & Ha). apply lower_split in Ha as (base & ext & -> & _ & Hext).
    by exists base, ext.
  - intros (base & ext & -> & Hext). exists (PyStr.lower base).
    by rewrite lower_app, Hext.
Qed.

(** A file that fails the test is passed over: nothing is parsed and the
    rows stay as they are. *)
Lemma rejected_file_skipped (C : Collaborators) (rules : list jval)
    (root_dir file : string) (results : list row) :
  accepted file = false -> file_body C rules root_dir file results = Ok results.
Proof. intros H. unfold file_body. fold (accepted file). by rewrite H. Qed.

(** ** More on the path normalizer *)

(** Replacing a text by one at least as long never shortens. *)
Lemma replace_from_length (old new : string) (k : nat) (s : string) :
  1 <= String.length old <= String.length new ->
  String.length s <= String.length (PyStr.replace_from old new k s) + k.
Proof.
  intros Hlen. revert k. induction s as [|c s IH]; intros k; [cbn; lia|].
  cbn [PyStr.replace_from String.length]. destruct k as [|k].
  - destruct (String.prefix old (String c s)).
    + rewrite str_app_length.
      specialize (IH (String.length old - 1)). lia.
    + cbn [String.length]. specialize (IH 0). lia.
  - specialize (IH k). lia.
Qed.

(** X14. The expressions [normalize_xpath] returns unchanged are exactly
    those that contain the marker; every other expression comes back at
    least two characters longer. *)
Theorem normalize_xpath_fixed_points (x : string) :
  (normalize_xpath x = x <-> PyStr.contains marker x = true) /\
  (PyStr.contains marker x = false ->
   String.length x + 2 <= String.length (normalize_xpath x)).
Proof.
  assert (Hgrow : PyStr.contains marker x = false ->
                  String.length x + 2 <= String.length (normalize_xpath x)).
  { intros H. rewrite normalize_unmarked by done. rewrite str_app_length.
    pose proof (replace_from_length "//" opening 0 x) as H1.
    pose proof (replace_from_length "/" step 0
                  (PyStr.replace_from "//" opening 0 x)) as H2.
    cbn [String.length opening step] in *. lia. }
  split; [|exact Hgrow]. split; [|apply normalize_marked].
  intros Hfix. destruct (PyStr.contains marker x) eqn:E; [done|].
  specialize (Hgrow eq_refl). rewrite Hfix in Hgrow. lia.
Qed.

(** X15. Whatever expression without the marker goes in, the text that
    comes out holds no separator at all and ends with the closing of a
    predicate. *)
Theorem normalize_xpath_drops_separators (x : string) :
  PyStr.contains marker x = false ->
  PyStr.contains "/" (normalize_xpath x) = false /\
  PyStr.endswith (normalize_xpath x) "']" = true.
Proof.
  intros H. split; [by apply normalize_never_rooted|].
  rewrite normalize_unmarked by done. apply endswith_iff. by eexists.
Qed.

Lemma normalize_xpath_drops_separators_witness :
  PyStr.contains "/" (normalize_xpath "//A/B") = false /\
  PyStr.endswith (normalize_xpath "//A/B") "']" = true.
Proof. apply (normalize_xpath_drops_separators "//A/B"). reflexivity. Defined.

(** * Properties of the side-by-side sheet *)

Section SheetFacts.

Import Excel.

Lemma change_names_other (tag : string) :
  tag <> "insert" -> tag <> "delete" -> tag <> "replace" ->
  change_names !! tag = None.
Proof.
  intros H1 H2 H3. unfold change_names. cbn [list_to_map foldr curry fst snd].
  by rewrite !lookup_insert_ne, lookup_empty.
Qed.

(** X16. Every change name [classify] returns has a colour of its own in
    the colour table, so the fallback colour of the fill loop is never
    used; the name is Equal exactly for the tags other than insert, delete
    and replace, and only Equal rows are white. *)
Theorem classify_has_color (tag : string) :
  exists c : string,
    HTML_COLORS !! classify tag = Some c /\
    color_of (classify tag) = c /\
    (classify tag = "Equal" <->
     tag <> "insert" /\ tag <> "delete" /\ tag <> "replace") /\
    (c = "ffffff" <-> classify tag = "Equal").
Proof.
  destruct (decide (tag = "insert")) as [->|H1];
    [exists "aaffaa"; repeat split; try done; intros (? & ? & ?); done|].
  destruct (decide (tag = "delete")) as [->|H2];
    [exists "ffaaaa"; repeat split; try done; intros (? & ? & ?); done|].
  destruct (decide (tag = "replace")) as [->|H3];
    [exists "ffff77"; repeat split; try done; intros (? & ? & ?); done|].
  exists "ffffff". unfold classify, color_of.
  rewrite change_names_other by done. by repeat split.
Qed.

Lemma slice_length {A : Type} (xs : list A) (i j : nat) :
  j <= length xs -> length (slice xs i j) = j - i.
Proof. intros H. unfold slice. rewrite length_drop, length_take. lia. Qed.

Lemma slice_lookup {A : Type} (xs : list A) (i j k : nat) (x : A) :
  slice xs i j !! k = Some x -> xs !! (i + k) = Some x.
Proof.
  unfold slice. rewrite lookup_drop. intros H.
  by apply lookup_take_Some in H as [H _].
Qed.

(** X17. For an opcode that lies inside the two files, the sheet gets as
    many rows as the longer of its two blocks has lines; every row has the
    five cells of the five columns and ends with the change name of the
    opcode. *)
Theorem block_rows_shape (xml1 xml2 : list string)
    (tag : string) (i1 i2 j1 j2 : nat) :
  i2 <= length xml1 -> j2 <= length xml2 ->
  length (block_rows xml1 xml2 (tag, i1, i2, j1, j2)) = max (i2 - i1) (j2 - j1) /\
  Forall (fun r => length r = 5 /\ r !! 4 = Some (Txt (classify tag)))
         (block_rows xml1 xml2 (tag, i1, i2, j1, j2)).
Proof.
  intros H1 H2. unfold block_rows. split.
  - by rewrite length_map, length_seq, !slice_length.
  - apply Forall_map, Forall_forall. by intros k _.
Qed.

Lemma block_rows_shape_witness :
  length (block_rows ["a"; "b"; "c"] ["a"; "x"] ("replace", 1, 3, 1, 2))
  = max (3 - 1) (2 - 1) /\
  Forall (fun r => length r = 5 /\ r !! 4 = Some (Txt (classify "replace")))
         (block_rows ["a"; "b"; "c"] ["a"; "x"] ("replace", 1, 3, 1, 2)).
Proof.
  apply (block_rows_shape ["a"; "b"; "c"] ["a"; "x"] "replace" 1 3 1 2);
    cbn; lia.
Defined.

Lemma block_row_left (L R : list string) (i1 j1 : nat) (ct : string) (k : nat) :
  left_line (block_row L R i1 j1 ct k)
  = if k <? length L then Some (i1 + k + 1, default EmptyString (L !! k)) else None.
Proof. unfold block_row. by destruct (k <? length L). Qed.

Lemma block_row_right (L R : list string) (i1 j1 : nat) (ct : string) (k : nat) :
  right_line (block_row L R i1 j1 ct k)
  = if k <? length R then Some (j1 + k + 1, default EmptyString (R !! k)) else None.
Proof.
  unfold block_row. by destruct (k <? length L), (k <? length R).
Qed.

(** X18. The line numbers of the sheet are right: whenever a row shows a
    number beside a text, on the left or on the right, the text is the line
    with that number (counted from 1) of the corresponding file. *)
Theorem sheet_line_numbers_right (xml1 xml2 : list string)
    (opcodes : list opcode) (r : list cell) (n : nat) (t : string) :
  In r (diff_rows xml1 xml2 opcodes) ->
  (left_line r = Some (n, t) -> 1 <= n /\ xml1 !! (n - 1) = Some t) /\
  (right_line r = Some (n, t) -> 1 <= n /\ xml2 !! (n - 1) = Some t).
Proof.
  unfold diff_rows. intros Hin.
  apply in_flat_map in Hin as ([[[[tag i1] i2] j1] j2] & _ & Hin).
  unfold block_rows in Hin. apply in_map_iff in Hin as (k & <- & _).
  rewrite block_row_left, block_row_right. split.
  - destruct (k <? length (slice xml1 i1 i2)) eqn:E; [|done].
    apply Nat.ltb_lt, lookup_lt_is_Some in E as (x & Hx).
    rewrite Hx. intros [= <- <-]. split; [lia|].
    replace (i1 + k + 1 - 1) with (i1 + k) by lia. by eapply slice_lookup.
  - destruct (k <? length (slice xml2 j1 j2)) eqn:E; [|done].
    apply Nat.ltb_lt, lookup_lt_is_Some in E as (x & Hx).
    rewrite Hx. intros [= <- <-]. split; [lia|].
    replace (j1 + k + 1 - 1) with (j1 + k) by lia. by eapply slice_lookup.
Qed.

Lemma sheet_line_numbers_right_witness :
  (left_line [Num 2; Txt "b"; Num 2; Txt "x"; Txt "Changed"] = Some (2, "b") ->
   1 <= 2 /\ ["a"; "b"; "c"] !! (2 - 1) = Some "b") /\
  (right_line [Num 2; Txt "b"; Num 2; Txt "x"; Txt "Changed"] = Some (2, "b") ->
   1 <= 2 /\ ["a"; "x"] !! (2 - 1) = Some "b").
Proof.
  apply (sheet_line_numbers_right ["a"; "b"; "c"] ["a"; "x"]
           [("equal", 0, 1, 0, 1); ("replace", 1, 3, 1, 2)]).
  cbn. tauto.
Defined.

Lemma omap_map {A B D : Type} (p : B -> option D) (f : A -> B) (ks : list A) :
  omap p (map f ks) = omap (fun k => p (f k)) ks.
Proof. induction ks as [|k ks IH]; [done|]. cbn. by rewrite IH. Qed.

Lemma omap_all_some {A B : Type} (g : A -> option B) (f : A -> B) (ks : list A) :
  (forall k, In k ks -> g k = Some (f k)) -> omap g ks = map f ks.
Proof.
  induction ks as [|k ks IH]; intros H; [done|].
  cbn. rewrite (H k) by (by left). cbn. f_equal.
  apply IH. intros k' Hk'. apply H. by right.
Qed.

Lemma omap_all_none {A B : Type} (g : A -> option B) (ks : list A) :
  (forall k, In k ks -> g k = None) -> omap g ks = [].
Proof.
  induction ks as [|k ks IH]; intros H; [done|].
  cbn. rewrite (H k) by (by left). apply IH.
  intros k' Hk'. apply H. by right.
Qed.

Lemma numbered_seq (start : nat) (L : list string) :
  map (fun k => (start + k + 1, default EmptyString (L !! k))) (seq 0 (length L))
  = numbered start L.
Proof.
  apply list_eq. intros i. unfold numbered.
  rewrite list_lookup_imap, (list_lookup_fmap _ (seq 0 (length L)) i).
  destruct (L !! i) as [x|] eqn:E.
  - rewrite lookup_seq_lt by (by eapply lookup_lt_Some). cbn. by rewrite E.
  - rewrite lookup_seq_ge by (by apply lookup_ge_None). done.
Qed.

Lemma omap_numbered (g : nat -> option (nat * string)) (start : nat)
    (L : list string) (m : nat) :
  (forall k, g k = if k <? length L
                   then Some (start + k + 1, default EmptyString (L !! k))
                   else None) ->
  length L <= m ->
  omap g (seq 0 m) = numbered start L.
Proof.
  intros Hg Hm. replace m with (length L + (m - length L)) by lia.
  rewrite seq_app, omap_app.
  rewrite (omap_all_some g (fun k => (start + k + 1, default EmptyString (L !! k)))).
  - rewrite omap_all_none, app_nil_r; [apply numbered_seq|].
    intros k Hk. apply in_seq in Hk. rewrite Hg.
    by rewrite (proj2 (Nat.ltb_ge k (length L))) by lia.
  - intros k Hk. apply in_seq in Hk. rewrite Hg.
    by rewrite (proj2 (Nat.ltb_lt k (length L))) by lia.
Qed.

Lemma block_rows_lines (xml1 xml2 : list string) (tag : string)
    (i1 i2 j1 j2 : nat) :
  omap left_line (block_rows xml1 xml2 (tag, i1, i2, j1, j2))
  = numbered i1 (slice xml1 i1 i2) /\
  omap right_line (block_rows xml1 xml2 (tag, i1, i2, j1, j2))
  = numbered j1 (slice xml2 j1 j2).
Proof.
  unfold block_rows. rewrite !omap_map. split.
  - apply omap_numbered; [intros k; apply block_row_left | lia].
  - apply omap_numbered; [intros k; apply block_row_right | lia].
Qed.

Lemma numbered_app (start : nat) (A B : list string) :
  numbered start (A ++ B) = numbered start A ++ numbered (start + length A) B.
Proof.
  unfold numbered. rewrite imap_app. f_equal.
  apply imap_ext. intros k x _. cbn. f_equal. lia.
Qed.

Lemma slice_then_rest {A : Type} (xs : list A) (i j : nat) :
  i <= j -> slice xs i j ++ drop j xs = drop i xs.
Proof.
  intros H. unfold slice.
  rewrite <- (take_drop j xs) at 3.
  destruct (decide (i <= length (take j xs))) as [Hle|Hgt].
  - by rewrite drop_app_le.
  - rewrite length_take in Hgt.
    rewrite (drop_ge (take j xs)) by (rewrite length_take; lia).
    rewrite (drop_ge (take j xs ++ drop j xs))
      by (rewrite length_app, length_take, length_drop; lia).
    rewrite (drop_ge xs) by lia. done.
Qed.

Lemma chained_bounds (opcodes : list opcode) (i j n1 n2 : nat) :
  chained i j opcodes n1 n2 -> i <= n1 /\ j <= n2.
Proof.
  revert i j. induction opcodes as [|[[[[tag i1] i2] j1] j2] rest IH];
    intros i j H; cbn in H.
  - lia.
  - destruct H as (-> & -> & Hi & Hj & H). apply IH in H. lia.
Qed.

Lemma diff_rows_lines_from (xml1 xml2 : list string) (opcodes : list opcode)
    (i j : nat) :
  chained i j opcodes (length xml1) (length xml2) ->
  omap left_line (diff_rows xml1 xml2 opcodes) = numbered i (drop i xml1) /\
  omap right_line (diff_rows xml1 xml2 opcodes) = numbered j (drop j xml2).
Proof.
  revert i j. induction opcodes as [|[[[[tag i1] i2] j1] j2] rest IH];
    intros i j H; cbn in H.
  - destruct H as [-> ->]. by rewrite !drop_all.
  - destruct H as (-> & -> & Hi & Hj & H).
    pose proof (chained_bounds _ _ _ _ _ H) as [Hb1 Hb2].
    destruct (IH _ _ H) as [IH1 IH2].
    destruct (block_rows_lines xml1 xml2 tag i i2 j j2) as [B1 B2].
    unfold diff_rows in *. cbn [flat_map]. rewrite !omap_app, B1, B2, IH1, IH2.
    rewrite <- (slice_then_rest xml1 i i2 Hi).
    rewrite <- (slice_then_rest xml2 j j2 Hj).
    rewrite !numbered_app, !slice_length by done.
    by replace (i + (i2 - i)) with i2 by lia;
       replace (j + (j2 - j)) with j2 by lia.
Qed.

(** X19. The sheet loses no line: when the opcodes are chained the way
    [difflib] documents them (each block starting where the one before
    ended, from 0 to the lengths of the two files), the numbered lines on
    the left of the sheet are exactly the lines of the first file, numbered
    1, 2, ... in order, and those on the right are the lines of the second
    file. *)
Theorem sheet_shows_every_line (xml1 xml2 : list string) (opcodes : list opcode) :
  chained 0 0 opcodes (length xml1) (length xml2) ->
  omap left_line (diff_rows xml1 xml2 opcodes) = numbered 0 xml1 /\
  omap right_line (diff_rows xml1 xml2 opcodes) = numbered 0 xml2.
Proof. apply diff_rows_lines_from. Qed.

Lemma sheet_shows_every_line_witness :
  omap left_line
    (diff_rows ["a"; "b"; "c"] ["a"; "x"]
       [("equal", 0, 1, 0, 1); ("replace", 1, 3, 1, 2)])
  = numbered 0 ["a"; "b"; "c"] /\
  omap right_line
    (diff_rows ["a"; "b"; "c"] ["a"; "x"]
       [("equal", 0, 1, 0, 1); ("replace", 1, 3, 1, 2)])
  = numbered 0 ["a"; "x"].
Proof.
  apply (sheet_shows_every_line ["a"; "b"; "c"] ["a"; "x"]
           [("equal", 0, 1, 0, 1); ("replace", 1, 3, 1, 2)]).
  cbn. lia.
Defined.

End SheetFacts.

(** * Properties of the download helpers *)

Section SyncFacts.

Import Sync.

Lemma clean_name_clean (c : ascii) (name : string) :
  PyStr.contains (String c EmptyString) forbidden = true ->
  PyStr.contains (String c EmptyString) (clean_name name) = false.
Proof.
  intros Hc. induction name as [|x name IH]; [done|].
  cbn [clean_name].
  destruct (PyStr.contains (String x EmptyString) forbidden) eqn:Ex; [done|].
  rewrite contains_char_cons, IH, orb_false_r.
  destruct (Ascii.ascii_dec c x) as [->|]; [congruence | done].
Qed.

Lemma clean_name_id (name : string) :
  (forall c, PyStr.contains (String c EmptyString) forbidden = true ->
             PyStr.contains (String c EmptyString) name = false) ->
  clean_name name = name.
Proof.
  induction name as [|x name IH]; intros H; [done|].
  cbn [clean_name].
  destruct (PyStr.contains (String x EmptyString) forbidden) eqn:Ex.
  - specialize (H x Ex). rewrite contains_char_cons in H.
    by destruct (Ascii.ascii_dec x x).
  - f_equal. apply IH. intros c Hc. specialize (H c Hc).
    rewrite contains_char_cons in H. by apply orb_false_iff in H as [_ H].
Qed.

(** X20. A cleaned name holds none of the nine characters the literal
    lists; cleaning twice is cleaning once; and the names that come back
    unchanged are exactly those that held none of the characters. *)
Theorem clean_name_removes_forbidden (name : string) :
  (forall c, PyStr.contains (String c EmptyString) forbidden = true ->
             PyStr.contains (String c EmptyString) (clean_name name) = false) /\
  clean_name (clean_name name) = clean_name name /\
  (clean_name name = name <->
   forall c, PyStr.contains (String c EmptyString) forbidden = true ->
             PyStr.contains (String c EmptyString) name = false).
Proof.
  split; [intros c; apply clean_name_clean|].
  split; [apply clean_name_id; intros c; apply clean_name_clean|].
  split; [|apply clean_name_id].
  intros <- c. apply clean_name_clean.
Qed.

Lemma throttled_is_error (resp : response) :
  throttled resp = true -> raise_for_status resp = true.
Proof.
  unfold throttled, raise_for_status. rewrite !orb_true_iff, !Nat.eqb_eq.
  by intros [[->| ->]| ->].
Qed.

Lemma retry_loop_returned (server : nat -> string + response)
    (remaining attempt : nat) (last : option response)
    (slept slept' : list nat) (resp : response) :
  (forall l, last = Some l -> throttled l = true) ->
  attempt = length slept ->
  retry_loop server remaining attempt last slept = (Returned resp, slept') ->
  throttled resp = false /\ raise_for_status resp = false /\
  server (length slept') = inr resp /\
  length slept' < attempt + remaining.
Proof.
  revert attempt last slept.
  induction remaining as [|remaining IH]; intros attempt last slept Hlast Hatt H.
  - cbn in H. destruct last as [l|]; [|discriminate].
    by rewrite (throttled_is_error l (Hlast l eq_refl)) in H.
  - cbn [retry_loop] in H.
    destruct (server attempt) as [what|r] eqn:Es; [discriminate|].
    destruct (throttled r) eqn:Et.
    + destruct (delay attempt r) as [d|]; [|discriminate].
      apply IH in H as (H1 & H2 & H3 & H4).
      * repeat split; try done. lia.
      * by intros l [= <-].
      * rewrite length_app. cbn. lia.
    + destruct (raise_for_status r) eqn:Er; [discriminate|].
      injection H as <- <-. subst attempt. repeat split; try done. lia.
Qed.

Lemma retry_loop_exhausted (server : nat -> string + response)
    (remaining attempt : nat) (last : option response) (slept : list nat) :
  (forall k, attempt <= k < attempt + remaining ->
     exists r, server k = inr r /\ throttled r = true /\ retry_after r = None) ->
  (remaining = 0 -> exists l, last = Some l /\ throttled l = true) ->
  exists r,
    retry_loop server remaining attempt last slept
    = (Raised (HTTPError r),
       slept ++ map (fun k => min 60 (2 ^ k)) (seq attempt remaining)) /\
    (remaining = 0 -> last = Some r) /\
    (0 < remaining -> server (attempt + remaining - 1) = inr r).
Proof.
  revert attempt last slept.
  induction remaining as [|remaining IH]; intros attempt last slept Hall Hlast.
  - destruct (Hlast eq_refl) as (l & -> & Hl). exists l. cbn.
    rewrite (throttled_is_error l Hl), app_nil_r. split; [done|]. split; [done|lia].
  - destruct (Hall attempt) as (r & Hs & Ht & Hra); [lia|].
    cbn [retry_loop]. rewrite Hs, Ht. unfold delay. rewrite Hra.
    destruct (IH (S attempt) (Some r) (slept ++ [min 60 (2 ^ attempt)]))
      as (r' & Hloop & Hzero & Hpos).
    + intros k Hk. apply Hall. lia.
    + intros _. by exists r.
    + exists r'. rewrite Hloop, <- app_assoc. split; [done|].
      split; [lia|]. intros _. destruct remaining as [|remaining].
      * specialize (Hzero eq_refl). injection Hzero as <-.
        by replace (attempt + 1 - 1) with attempt by lia.
      * replace (attempt + S (S remaining) - 1)
          with (S attempt + S remaining - 1) by lia.
        apply Hpos. lia.
Qed.

(** X22. When every allowed attempt is throttled and no response names a
    Retry-After, the call waits after each attempt, the last one included,
    for 1, 2, 4, ... seconds capped at 60, and then fails with the HTTP
    error of the last response. *)
Theorem retry_exhausted_raises (server : nat -> string + response)
    (max_retries : Z) :
  (0 < max_retries)%Z ->
  (forall k, (Z.of_nat k < max_retries)%Z ->
     exists r, server k = inr r /\ throttled r = true /\ retry_after r = None) ->
  exists r,
    server (Z.to_nat max_retries - 1) = inr r /\
    request_with_retry server max_retries
    = (Raised (HTTPError r),
       map (fun k => min 60 (2 ^ k)) (seq 0 (Z.to_nat max_retries))).
Proof.
  intros Hpos Hall. unfold request_with_retry.
  destruct (retry_loop_exhausted server (Z.to_nat max_retries) 0 None [])
    as (r & Hloop & _ & Hlast).
  - intros k Hk. apply Hall. lia.
  - lia.
  - exists r. split; [apply Hlast; lia | exact Hloop].
Qed.

Lemma retry_exhausted_raises_witness :
  exists r,
    busy (Z.to_nat 6 - 1) = inr r /\
    request_with_retry busy 6
    = (Raised (HTTPError r),
       map (fun k => min 60 (2 ^ k)) (seq 0 (Z.to_nat 6))).
Proof.
  apply (retry_exhausted_raises busy 6); [lia|].
  intros k _. by eexists.
Defined.

(** With the six attempts the script allows, a server that stays busy
    costs 63 seconds of waiting. *)
Lemma retry_default_wait :
  snd (request_with_retry busy 6) = [1; 2; 4; 8; 16; 32] /\
  list_sum (snd (request_with_retry busy 6)) = 63.
Proof. split; reflexivity. Qed.

Lemma retry_loop_sleeps (server : nat -> string + response)
    (remaining attempt : nat) (last : option response)
    (slept slept' : list nat) (o : outcome) :
  retry_loop server remaining attempt last slept = (o, slept') ->
  exists more,
    slept' = slept ++ more /\ length more <= remaining /\
    forall i d, more !! i = Some d ->
      exists r, server (attempt + i) = inr r /\ throttled r = true /\
                delay (attempt + i) r = Some d.
Proof.
  revert attempt last slept.
  induction remaining as [|remaining IH]; intros attempt last slept H.
  - exists []. rewrite app_nil_r. cbn in H.
    split; [|split; [done | by intros i d]].
    destruct last as [l|]; [destruct (raise_for_status l)|]; congruence.
  - cbn [retry_loop] in H.
    destruct (server attempt) as [what|r] eqn:Es.
    { exists []. rewrite app_nil_r.
      split; [congruence | split; [cbn; lia | by intros i d]]. }
    destruct (throttled r) eqn:Et.
    + destruct (delay attempt r) as [d0|] eqn:Ed.
      * apply IH in H as (more & -> & Hlen & Hmore).
        exists (d0 :: more). rewrite <- app_assoc.
        split; [done|]. split; [cbn; lia|].
        intros [|i] d Hi.
        -- injection Hi as <-. exists r. by rewrite Nat.add_0_r.
        -- replace (attempt + S i) with (S attempt + i) by lia.
           by apply Hmore.
      * exists []. rewrite app_nil_r.
        split; [congruence | split; [cbn; lia | by intros i d]].
    + exists []. rewrite app_nil_r.
      split; [|split; [cbn; lia | by intros i d]].
      destruct (raise_for_status r); congruence.
Qed.

(** X21. A response that [request_with_retry] returns is never a throttled
    one nor a client or server error: it is the answer to the first attempt
    that was not throttled. Every attempt before it got a throttled answer
    and was followed by the wait computed for that answer, and fewer
    attempts than the allowed number came before it. *)
Theorem retry_returns_good_response (server : nat -> string + response)
    (max_retries : Z) (resp : response) (slept : list nat) :
  request_with_retry server max_retries = (Returned resp, slept) ->
  throttled resp = false /\ raise_for_status resp = false /\
  server (length slept) = inr resp /\
  (Z.of_nat (length slept) < max_retries)%Z /\
  (forall k, k < length slept ->
     exists r d, server k = inr r /\ throttled r = true /\
                 delay k r = Some d /\ slept !! k = Some d).
Proof.
  unfold request_with_retry. intros H.
  pose proof H as Hs. apply retry_loop_sleeps in Hs as (more & -> & _ & Hmore).
  apply retry_loop_returned in H as (H1 & H2 & H3 & H4); try done.
  repeat split; try done; [lia|].
  intros k Hk. destruct (lookup_lt_is_Some_2 more k Hk) as (d & Hd).
  destruct (Hmore k d Hd) as (r & Hr & Ht & Hdel). by exists r, d.
Qed.

Lemma retry_returns_good_response_witness :
  throttled {| status_code := 200; retry_after := None |} = false /\
  raise_for_status {| status_code := 200; retry_after := None |} = false /\
  flaky (length [1; 2]) = inr {| status_code := 200; retry_after := None |} /\
  (Z.of_nat (length [1; 2]) < 6)%Z /\
  (forall k, k < length [1; 2] ->
     exists r d, flaky k = inr r /\ throttled r = true /\
                 delay k r = Some d /\ [1; 2] !! k = Some d).
Proof.
  apply (retry_returns_good_response flaky 6
           {| status_code := 200; retry_after := None |} [1; 2]).
  reflexivity.
Defined.

(** X23. However the server answers, [request_with_retry] waits at most
    once per allowed attempt; the wait number k follows a throttled answer
    to attempt k and is the delay computed for it, at most 60 seconds
    unless the answer named its own Retry-After. With no attempt allowed
    the call makes no request and fails on the unset response. *)
Theorem retry_waits_bounded (server : nat -> string + response)
    (max_retries : Z) (o : outcome) (slept : list nat) :
  request_with_retry server max_retries = (o, slept) ->
  length slept <= Z.to_nat max_retries /\
  (forall k d, slept !! k = Some d ->
     exists r, server k = inr r /\ throttled r = true /\
               delay k r = Some d /\ (retry_after r = None -> d <= 60)) /\
  ((max_retries <= 0)%Z -> o = Raised UnboundLocalError /\ slept = []).
Proof.
  unfold request_with_retry. intros H. split; [|split].
  - apply retry_loop_sleeps in H as (more & -> & Hlen & _). done.
  - apply retry_loop_sleeps in H as (more & -> & _ & Hmore).
    intros k d Hk. destruct (Hmore k d Hk) as (r & Hs & Ht & Hd).
    exists r. repeat split; try done.
    intros Hra. unfold delay in Hd. rewrite Hra in Hd.
    pose proof (Nat.le_min_l 60 (2 ^ (0 + k))) as Hmin. congruence.
  - intros Hle. replace (Z.to_nat max_retries) with 0 in H by lia.
    cbn in H. by injection H as <- <-.
Qed.

Lemma retry_waits_bounded_witness :
  length [1; 2] <= Z.to_nat 6 /\
  (forall k d, [1; 2] !! k = Some d ->
     exists r, flaky k = inr r /\ throttled r = true /\
               delay k r = Some d /\ (retry_after r = None -> d <= 60)) /\
  ((6 <= 0)%Z ->
   Returned {| status_code := 200; retry_after := None |} = Raised UnboundLocalError /\
   [1; 2] = []).
Proof.
  apply (retry_waits_bounded flaky 6
           (Returned {| status_code := 200; retry_after := None |}) [1; 2]).
  reflexivity.
Defined.

End SyncFacts.

(** * Properties of the environment check *)

Section SvnFacts.

Import Svn.

Lemma unset_false (environ : gmap string string) (k : string) :
  unset environ k = false <->
  exists v, environ !! k = Some v /\ v <> EmptyString.
Proof.
  unfold unset. destruct (environ !! k) as [v|].
  - rewrite String.eqb_neq. split; [by exists v | by intros (w & [= <-] & H)].
  - split; [discriminate | by intros (w & H & _)].
Qed.

Lemma filter_nil_iff {A : Type} (p : A -> bool) (xs : list A) :
  List.filter p xs = [] <-> forall x, In x xs -> p x = false.
Proof.
  induction xs as [|x xs IH]; cbn; [by split|].
  destruct (p x) eqn:E; split.
  - discriminate.
  - intros H. specialize (H x (or_introl eq_refl)). congruence.
  - intros H y [<-|Hy]; [done | by apply IH].
  - intros H. apply IH. intros y Hy. apply H. by right.
Qed.

Lemma all_set (environ : gmap string string) :
  List.filter (unset environ) required = [] <->
  (exists p, environ !! "SOURCE_PATH" = Some p /\ p <> EmptyString) /\
  (exists u, environ !! "SVN_URL" = Some u /\ u <> EmptyString) /\
  (exists n, environ !! "SVN_USERNAME" = Some n /\ n <> EmptyString) /\
  (exists w, environ !! "SVN_PASSWORD" = Some w /\ w <> EmptyString) /\
  (exists m, environ !! "COMMIT_MESSAGE" = Some m /\ m <> EmptyString).
Proof.
  rewrite filter_nil_iff, <- !unset_false. unfold required. split.
  - intros H. repeat split; apply H; cbn; tauto.
  - intros (H1 & H2 & H3 & H4 & H5) x Hx. cbn in Hx.
    destruct Hx as [<-|[<-|[<-|[<-|[<-|[]]]]]]; done.
Qed.

(** X24. [validate_env] succeeds exactly when the five variables are all
    set to non-empty values and the path built from the source variable
    exists and is a directory; it returns that path and the values of the
    four other variables. *)
Theorem validate_env_succeeds_iff {P : Type} (environ : gmap string string)
    (to_path : string -> P) (path_exists is_dir : P -> bool)
    (p : P) (u n w m : string) :
  validate_env environ to_path path_exists is_dir = Validated p u n w m <->
  (exists source : string,
     environ !! "SOURCE_PATH" = Some source /\ source <> EmptyString /\
     p = to_path source /\
     path_exists (to_path source) = true /\ is_dir (to_path source) = true) /\
  (environ !! "SVN_URL" = Some u /\ u <> EmptyString) /\
  (environ !! "SVN_USERNAME" = Some n /\ n <> EmptyString) /\
  (environ !! "SVN_PASSWORD" = Some w /\ w <> EmptyString) /\
  (environ !! "COMMIT_MESSAGE" = Some m /\ m <> EmptyString).
Proof.
  unfold validate_env. split.
  - destruct (List.filter (unset environ) required) as [|k ks] eqn:E;
      [|discriminate].
    apply all_set in E
      as ((p' & Hp & Np) & (u' & Hu & Nu) & (n' & Hn & Nn) &
          (w' & Hw & Nw) & (m' & Hm & Nm)).
    unfold environ_at. rewrite Hp, Hu, Hn, Hw, Hm.
    destruct (path_exists (to_path p')) eqn:Ee, (is_dir (to_path p')) eqn:Ed;
      try discriminate.
    intros [= <- <- <- <- <-]. split; [by exists p'|done].
  - intros ((source & Hp & Np & -> & He & Hd) & (Hu & Nu) & (Hn & Nn) &
            (Hw & Nw) & (Hm & Nm)).
    rewrite (proj2 (all_set environ)) by (repeat split; by eexists).
    unfold environ_at. by rewrite Hp, Hu, Hn, Hw, Hm, He, Hd.
Qed.

(** X25. The check for missing variables comes first and decides alone:
    [validate_env] fails with the environment error exactly when one of
    the five variables is absent or empty, whatever the file system says,
    and the message then lists those variables in the order of the list.
    Reading the variables afterwards never fails with a key error. *)
Theorem validate_env_failures {P : Type} (environ : gmap string string)
    (to_path : string -> P) (path_exists is_dir : P -> bool) :
  (forall k, validate_env environ to_path path_exists is_dir <> KeyError k) /\
  ((exists k, In k required /\ unset environ k = true) <->
   validate_env environ to_path path_exists is_dir
   = EnvironmentError ("Missing environment variables: "
                       +:+ join ", " (List.filter (unset environ) required))).
Proof.
  unfold validate_env.
  destruct (List.filter (unset environ) required) as [|k ks] eqn:E.
  - pose proof (proj1 (filter_nil_iff _ _) E) as Hnone.
    apply all_set in E
      as ((p' & Hp & Np) & (u' & Hu & Nu) & (n' & Hn & Nn) &
          (w' & Hw & Nw) & (m' & Hm & Nm)).
    unfold environ_at. rewrite Hp, Hu, Hn, Hw, Hm. split.
    + intros k.
      by destruct (negb (path_exists (to_path p')) || negb (is_dir (to_path p'))).
    + split.
      * intros (k & Hk & Hset). rewrite (Hnone k Hk) in Hset. discriminate.
      * by destruct (negb (path_exists (to_path p'))
                     || negb (is_dir (to_path p'))).
  - split; [done|]. split; [done|]. intros _.
    assert (Hin : In k (List.filter (unset environ) required))
      by (rewrite E; by left).
    apply filter_In in Hin as [Hk Hset]. by exists k.
Qed.

Lemma validate_env_example :
  validate_env (list_to_map [("SOURCE_PATH", "out"); ("SVN_URL", EmptyString);
                             ("SVN_USERNAME", "ci")])
    (fun source : string => source) (fun _ => false) (fun _ => false)
  = EnvironmentError
      "Missing environment variables: SVN_URL, SVN_PASSWORD, COMMIT_MESSAGE".
Proof. vm_compute. reflexivity. Qed.

End SvnFacts.

(** * Two more properties of the rule loop *)

(** X26. A query the engine refuses stops nothing: the rule adds its one
    INVALID_XPATH row and the loop goes on with the rules that follow, on
    the same document. *)
Theorem refused_query_rule_continues (C : Collaborators) (root : Tree C)
    (rel_path file : string) (m : gmap string jval) (q : jval)
    (rules : list jval) (results : list row) :
  normalize_xpath_dyn (dict_get m "xpath" (JStr EmptyString)) = Ok q ->
  root_xpath C root q = None ->
  for_each (JObj m :: rules) (rule_body C root rel_path file) results
  = for_each rules (rule_body C root rel_path file)
      (results ++ [[JStr rel_path; JStr file;
                    dict_get m "rule_id" (JStr "UNKNOWN");
                    dict_get m "description" (JStr EmptyString);
                    q; dict_get m "expected" (JStr EmptyString);
                    JStr EmptyString; JStr "INVALID_XPATH"]]).
Proof.
  intros Hq Hx. cbn [for_each]. unfold rule_body at 1.
  rewrite Hq. cbn [bind]. by rewrite Hx.
Qed.

Lemma refused_query_rule_continues_witness :
  for_each [JObj Demo.plain_fields; JObj Demo.optional_fields]
    (rule_body Demo.world Demo.ok_tree "ok.arxml" "ok.arxml") []
  = for_each [JObj Demo.optional_fields]
      (rule_body Demo.world Demo.ok_tree "ok.arxml" "ok.arxml")
      ([] ++ [[JStr "ok.arxml"; JStr "ok.arxml";
               dict_get Demo.plain_fields "rule_id" (JStr "UNKNOWN");
               dict_get Demo.plain_fields "description" (JStr EmptyString);
               JStr "'][local-name()='A'][local-name()='B']";
               dict_get Demo.plain_fields "expected" (JStr EmptyString);
               JStr EmptyString; JStr "INVALID_XPATH"]]).
Proof.
  apply (refused_query_rule_continues Demo.world Demo.ok_tree "ok.arxml" "ok.arxml"
           Demo.plain_fields (JStr "'][local-name()='A'][local-name()='B']")
           [JObj Demo.optional_fields] []);
    vm_compute; reflexivity.
Defined.

(** X27. A rule that is no object, or whose query is null, a boolean or a
    number, is not recorded as a row: when the rules before it are safe,
    then on the first document that parses, wherever it stands in the scan,
    reading the rule raises (AttributeError for a rule that is no object,
    TypeError for such a query) and the run ends without a report. *)
Theorem ill_typed_rule_aborts_run (C : Collaborators)
    (good : list jval) (rule : jval) (e : exn) (rules : list jval)
    (before : list (string * list string))
    (root_dir : string) (skipped : list string) (file : string)
    (files : list string) (walk : list (string * list string))
    (root : Tree C) :
  Forall (safe_rule C) good ->
  ill_typed rule e ->
  (forall d f, In d before -> In f d.2 -> accepted f = true ->
     exists msg, etree_parse C (path_join C d.1 f) = inl msg) ->
  (forall f, In f skipped -> accepted f = true ->
     exists msg, etree_parse C (path_join C root_dir f) = inl msg) ->
  accepted file = true ->
  etree_parse C (path_join C root_dir file) = inr root ->
  main C (good ++ rule :: rules)
    (before ++ (root_dir, skipped ++ file :: files) :: walk)
  = Raise e.
Proof.
  intros Hgood Hrule Hbefore Hskipped Hacc Hp.
  assert (Hbody : forall rel_path s,
            for_each (good ++ rule :: rules) (rule_body C root rel_path file) s
            = Raise e).
  { intros rel_path s. rewrite for_each_app.
    destruct (for_each_total good (rule_body C root rel_path file)) with (s := s)
      as (s' & ->).
    { intros r t Hr. apply safe_rule_total.
      rewrite Forall_forall in Hgood. by apply Hgood, list_elem_of_In. }
    cbn [bind for_each].
    replace (rule_body C root rel_path file rule s') with (@Raise (list row) e);
      [done|].
    destruct Hrule as [rule Hno|m v Hv Hty].
    - destruct rule; try done. by destruct (Hno m).
    - unfold rule_body, dict_get. rewrite Hv.
      by destruct Hty as [->|[[b ->]|[z ->]]]. }
  assert (Hne : good ++ rule :: rules <> []) by (by destruct good).
  revert Hbody Hne. generalize (good ++ rule :: rules). intros all Hbody Hne.
  unfold main. destruct all as [|r rs]; [done|]. rewrite for_each_app.
  destruct (unparsable_walk C (r :: rs) before Hbefore [])
    as (rows1 & -> & _).
  cbn [bind for_each fst snd]. rewrite for_each_app.
  destruct (unparsable_directory C (r :: rs) root_dir skipped
              Hskipped ([] ++ rows1)) as (rows2 & -> & _).
  cbn [bind]. unfold for_each at 1. fold (@for_each string (list row)).
  unfold file_body at 1. fold (accepted file).
  rewrite Hacc. cbn [negb]. unfold document_body. rewrite Hp.
  by rewrite Hbody.
Qed.

Lemma ill_typed_rule_aborts_run_witness :
  main Demo.world
    ([JObj Demo.optional_fields] ++ JNum 5 :: [JObj Demo.bare_fields])
    ([("proj", ["bad.arxml"])]
     ++ ("proj", ["README.md"; "bad.arxml"] ++ "ok.arxml" :: ["notes.txt"])
     :: [("proj", ["ok.arxml"])])
  = Raise AttributeError /\
  main Demo.world
    ([JObj Demo.optional_fields]
     ++ JObj Demo.numeric_query_fields :: [JObj Demo.bare_fields])
    ([("proj", ["bad.arxml"])]
     ++ ("proj", ["README.md"; "bad.arxml"] ++ "ok.arxml" :: ["notes.txt"])
     :: [("proj", ["ok.arxml"])])
  = Raise TypeError.
Proof.
  assert (Hgood : Forall (safe_rule Demo.world) [JObj Demo.optional_fields]).
  { repeat constructor.
    exists Demo.optional_fields, "//*[local-name()='Z']". split; [reflexivity|].
    split; [reflexivity|].
    split; [intros root v [= <-]; right; by eexists|].
    split; intros H; vm_compute in H; discriminate H. }
  assert (Hbefore : forall d f, In d [("proj", ["bad.arxml"])] -> In f d.2 ->
            accepted f = true ->
            exists msg,
              etree_parse Demo.world (path_join Demo.world d.1 f) = inl msg).
  { intros d f [<-|[]] [<-|[]] _. by exists "Start tag expected". }
  assert (Hskipped : forall f, In f ["README.md"; "bad.arxml"] ->
            accepted f = true ->
            exists msg,
              etree_parse Demo.world (path_join Demo.world "proj" f) = inl msg).
  { intros f [<-|[<-|[]]] Hacc; [discriminate Hacc|].
    by exists "Start tag expected". }
  split.
  - apply (ill_typed_rule_aborts_run Demo.world [JObj Demo.optional_fields]
             (JNum 5) AttributeError
             [JObj Demo.bare_fields] [("proj", ["bad.arxml"])] "proj"
             ["README.md"; "bad.arxml"] "ok.arxml" ["notes.txt"]
             [("proj", ["ok.arxml"])] Demo.ok_tree);
      [exact Hgood | by apply ill_typed_rule | exact Hbefore | exact Hskipped
      | reflexivity | reflexivity].
  - apply (ill_typed_rule_aborts_run Demo.world [JObj Demo.optional_fields]
             (JObj Demo.numeric_query_fields) TypeError
             [JObj Demo.bare_fields] [("proj", ["bad.arxml"])] "proj"
             ["README.md"; "bad.arxml"] "ok.arxml" ["notes.txt"]
             [("proj", ["ok.arxml"])] Demo.ok_tree);
      [exact Hgood
      | apply (ill_typed_query Demo.numeric_query_fields (JNum 5));
         [reflexivity | right; right; by exists 5%Z]
      | exact Hbefore | exact Hskipped | reflexivity | reflexivity].
Defined.
